(** * SmartAIInterviewer (SAI): session handling of the interview page

    A shallow embedding of the session logic of the React front end
    ([pages/InterviewPage.tsx], [components/StartInterviewForm.tsx] and
    [lib/api.ts]): transcript reconstruction, the resume-or-start effect,
    the duration timer, the send-message mutation and the end call.

    React state is a record, every effect and handler is a function from
    that record to the next one together with the HTTP requests it issues.
    The REST back end is not part of the front-end sources; where an
    operation needs it, it is modelled from the written specification and
    marked as such. *)

From Stdlib Require Import String Ascii List ZArith Lia Bool Arith DecimalString.
Import ListNotations.
Open Scope string_scope.
Open Scope Z_scope.

Set Implicit Arguments.

(** ** JavaScript values used by the page *)

(** [!!s] for a string: the empty string is falsy. *)
Definition truthy (s : string) : bool := negb (s =? "")%string.

(** [!!x] for [string | null | undefined]. *)
Definition truthyOpt (x : option string) : bool :=
  match x with
  | Some s => truthy s
  | None => false
  end.

(** [x || undefined] on [string | null]: a falsy value becomes absent. *)
Definition orUndefined (x : option string) : option string :=
  if truthyOpt x then x else None.

(** [s === x] for [s : string] and [x : string | null]. *)
Definition strictEqOpt (s : string) (x : option string) : bool :=
  match x with
  | Some y => (s =? y)%string
  | None => false
  end.

(** ** Data model of [lib/api.ts] *)

Module Interview.
Record t : Type := mk
  { id : string;
    user_id : string;
    title : string;
    duration_minutes : Z;
    job_description : option string;
    cv_summary : option string;
    created_at : string }.
End Interview.

Module InterviewSession.
(** One persisted turn.  [session_run_id] is optional in the interface
    ([session_run_id?: string]); [feedback] is [string | null]. *)
Record t : Type := mk
  { id : string;
    interview_id : string;
    ai_message : string;
    user_message : string;
    feedback : option string;
    created_at : string;
    session_run_id : option string }.
End InterviewSession.

Abbreviation Turn := InterviewSession.t.

(** The two reserved candidate messages, as the page compares them. *)
Definition INTERVIEW_STARTED : string := "[INTERVIEW_STARTED]".
Definition SESSION_ENDED : string := "[SESSION_ENDED]".

Definition isOpeningSession (s : Turn) : bool :=
  (InterviewSession.user_message s =? INTERVIEW_STARTED)%string.

Definition isEndedSession (s : Turn) : bool :=
  (InterviewSession.user_message s =? SESSION_ENDED)%string.

(** ** Transcript reconstruction ([InterviewPage], "Convert sessions to messages") *)

Inductive Role : Type := ai | user.

Module Message.
(** [feedback?: string | null]: absent and [null] are both rendered as
    no feedback, so one [None] stands for the two. *)
Record t : Type := mk
  { id : string;
    role : Role;
    content : string;
    feedback : option string;
    timestamp : string }.
End Message.

Definition aiMessageOf (session : Turn) : Message.t :=
  Message.mk (InterviewSession.id session) ai
             (InterviewSession.ai_message session)
             (InterviewSession.feedback session)
             (InterviewSession.created_at session).

Definition userMessageOf (session : Turn) : Message.t :=
  Message.mk (InterviewSession.id session ++ "-user") user
             (InterviewSession.user_message session)
             None
             (InterviewSession.created_at session).

(** Body of [sessions.forEach] in the current page. *)
Definition sessionMessages (session : Turn) : list Message.t :=
  if isOpeningSession session
  then [aiMessageOf session]
  else [userMessageOf session; aiMessageOf session].

Definition isOpeningQuestionInSessions
    (openingQuestion : option string) (sessions : list Turn) : bool :=
  existsb (fun s => isOpeningSession s
                    && strictEqOpt (InterviewSession.ai_message s) openingQuestion)
          sessions.

(** The message pushed before the loop; [nowIso] is
    [new Date().toISOString()] at render time. *)
Definition openingMessages (nowIso : string)
    (openingQuestion : option string) (sessions : list Turn) : list Message.t :=
  match openingQuestion with
  | Some q =>
      if truthy q && (length sessions =? 0)%nat
         && negb (isOpeningQuestionInSessions openingQuestion sessions)
      then [Message.mk "opening" ai q None nowIso]
      else []
  | None => []
  end.

Definition messages (nowIso : string)
    (openingQuestion : option string) (sessions : list Turn) : list Message.t :=
  openingMessages nowIso openingQuestion sessions
  ++ flat_map sessionMessages sessions.

(** The older revision of the page kept in the sources: it skips the
    opening placeholder and pushes the system message before the
    candidate's. *)
Definition sessionMessages_old (session : Turn) : list Message.t :=
  if isOpeningSession session
  then []
  else [aiMessageOf session; userMessageOf session].

Definition messages_old (nowIso : string)
    (openingQuestion : option string) (sessions : list Turn) : list Message.t :=
  match openingQuestion with
  | Some q =>
      if truthy q && (length sessions =? 0)%nat
      then [Message.mk "opening" ai q None nowIso]
      else []
  | None => []
  end ++ flat_map sessionMessages_old sessions.

(** ** Responses of the REST client ([lib/api.ts]) *)

Module StartInterviewResponse.
Record t : Type := mk
  { interview_id : string;
    session_run_id : string;
    opening_question : string;
    interview_title : string;
    duration_minutes : Z;
    cv_summary : option string;
    jd_summary : option string;
    status : string }.
End StartInterviewResponse.

Module SendMessageResponse.
Record t : Type := mk
  { session_id : string;
    ai_message : string;
    feedback : option string;
    created_at : string }.
End SendMessageResponse.

Module EndInterviewResponse.
Record t : Type := mk
  { status : string;
    interview_id : string;
    session_run_id : option string;
    summary : option string }.
End EndInterviewResponse.

(** Requests the page sends.  [api.sendMessage] and [api.endInterview]
    put [sessionRunId || null] in the body. *)
Inductive Request : Type :=
| StartInterview (interviewId : string)
| SendMessage (interviewId : string) (user_message : string)
              (session_run_id : option string)
| EndInterview (interviewId : string) (session_run_id : option string).

(** ** State of [InterviewPage] *)

Inductive Location : Type := OnInterviewPage | OnDashboard.

(** [elapsedTime] is a JavaScript number that can become [NaN] when the
    opening turn's timestamp does not parse: [None] stands for [NaN].
    [sendCurrent] is the mutation the [sendMessageMutation] observer
    follows, so [sendMessageMutation.isPending] is [sendCurrent <> None];
    [sendCount] numbers the [mutate] calls. *)
Record Page : Type := mkPage
  { interviewId : string;
    userMessage : string;
    started : bool;
    openingQuestion : option string;
    sessionRunId : option string;
    elapsedTime : option Z;
    durationMinutes : Z;
    summary : option string;
    isCodeOpen : bool;
    isLoadingLatest : bool;
    latestSession : option Turn;
    interview : option Interview.t;
    sessions : list Turn;
    startPending : bool;
    sendCurrent : option nat;
    sendCount : nat;
    location : Location }.

Definition sendPending (p : Page) : bool :=
  match sendCurrent p with Some _ => true | None => false end.

(** First render after a page load: the [useState] initial values; the
    query cache is empty, so the latest-session query is enabled and
    loading and the other data has not arrived. *)
Definition initialPage (iid : string) : Page :=
  {| interviewId := iid; userMessage := ""; started := false;
     openingQuestion := None; sessionRunId := None; elapsedTime := Some 0;
     durationMinutes := 30; summary := None; isCodeOpen := false;
     isLoadingLatest := true; latestSession := None; interview := None;
     sessions := []; startPending := false; sendCurrent := None;
     sendCount := 0%nat; location := OnInterviewPage |}.

Definition setUserMessage (v : string) (p : Page) : Page :=
  mkPage (interviewId p) v (started p) (openingQuestion p) (sessionRunId p)
         (elapsedTime p) (durationMinutes p) (summary p) (isCodeOpen p)
         (isLoadingLatest p) (latestSession p) (interview p) (sessions p)
         (startPending p) (sendCurrent p) (sendCount p) (location p).

Definition setStarted (v : bool) (p : Page) : Page :=
  mkPage (interviewId p) (userMessage p) v (openingQuestion p) (sessionRunId p)
         (elapsedTime p) (durationMinutes p) (summary p) (isCodeOpen p)
         (isLoadingLatest p) (latestSession p) (interview p) (sessions p)
         (startPending p) (sendCurrent p) (sendCount p) (location p).

Definition setOpeningQuestion (v : option string) (p : Page) : Page :=
  mkPage (interviewId p) (userMessage p) (started p) v (sessionRunId p)
         (elapsedTime p) (durationMinutes p) (summary p) (isCodeOpen p)
         (isLoadingLatest p) (latestSession p) (interview p) (sessions p)
         (startPending p) (sendCurrent p) (sendCount p) (location p).

Definition setSessionRunId (v : option string) (p : Page) : Page :=
  mkPage (interviewId p) (userMessage p) (started p) (openingQuestion p) v
         (elapsedTime p) (durationMinutes p) (summary p) (isCodeOpen p)
         (isLoadingLatest p) (latestSession p) (interview p) (sessions p)
         (startPending p) (sendCurrent p) (sendCount p) (location p).

Definition setElapsedTime (v : option Z) (p : Page) : Page :=
  mkPage (interviewId p) (userMessage p) (started p) (openingQuestion p)
         (sessionRunId p) v (durationMinutes p) (summary p) (isCodeOpen p)
         (isLoadingLatest p) (latestSession p) (interview p) (sessions p)
         (startPending p) (sendCurrent p) (sendCount p) (location p).

Definition setDurationMinutes (v : Z) (p : Page) : Page :=
  mkPage (interviewId p) (userMessage p) (started p) (openingQuestion p)
         (sessionRunId p) (elapsedTime p) v (summary p) (isCodeOpen p)
         (isLoadingLatest p) (latestSession p) (interview p) (sessions p)
         (startPending p) (sendCurrent p) (sendCount p) (location p).

Definition setSummary (v : option string) (p : Page) : Page :=
  mkPage (interviewId p) (userMessage p) (started p) (openingQuestion p)
         (sessionRunId p) (elapsedTime p) (durationMinutes p) v (isCodeOpen p)
         (isLoadingLatest p) (latestSession p) (interview p) (sessions p)
         (startPending p) (sendCurrent p) (sendCount p) (location p).

Definition setIsCodeOpen (v : bool) (p : Page) : Page :=
  mkPage (interviewId p) (userMessage p) (started p) (openingQuestion p)
         (sessionRunId p) (elapsedTime p) (durationMinutes p) (summary p) v
         (isLoadingLatest p) (latestSession p) (interview p) (sessions p)
         (startPending p) (sendCurrent p) (sendCount p) (location p).

Definition setLatest (loading : bool) (v : option Turn) (p : Page) : Page :=
  mkPage (interviewId p) (userMessage p) (started p) (openingQuestion p)
         (sessionRunId p) (elapsedTime p) (durationMinutes p) (summary p)
         (isCodeOpen p) loading v (interview p) (sessions p)
         (startPending p) (sendCurrent p) (sendCount p) (location p).

Definition setInterview (v : option Interview.t) (p : Page) : Page :=
  mkPage (interviewId p) (userMessage p) (started p) (openingQuestion p)
         (sessionRunId p) (elapsedTime p) (durationMinutes p) (summary p)
         (isCodeOpen p) (isLoadingLatest p) (latestSession p) v (sessions p)
         (startPending p) (sendCurrent p) (sendCount p) (location p).

Definition setSessions (v : list Turn) (p : Page) : Page :=
  mkPage (interviewId p) (userMessage p) (started p) (openingQuestion p)
         (sessionRunId p) (elapsedTime p) (durationMinutes p) (summary p)
         (isCodeOpen p) (isLoadingLatest p) (latestSession p) (interview p) v
         (startPending p) (sendCurrent p) (sendCount p) (location p).

Definition setStartPending (v : bool) (p : Page) : Page :=
  mkPage (interviewId p) (userMessage p) (started p) (openingQuestion p)
         (sessionRunId p) (elapsedTime p) (durationMinutes p) (summary p)
         (isCodeOpen p) (isLoadingLatest p) (latestSession p) (interview p)
         (sessions p) v (sendCurrent p) (sendCount p) (location p).

Definition setSend (current : option nat) (count : nat) (p : Page) : Page :=
  mkPage (interviewId p) (userMessage p) (started p) (openingQuestion p)
         (sessionRunId p) (elapsedTime p) (durationMinutes p) (summary p)
         (isCodeOpen p) (isLoadingLatest p) (latestSession p) (interview p)
         (sessions p) (startPending p) current count (location p).

Definition navigate (v : Location) (p : Page) : Page :=
  mkPage (interviewId p) (userMessage p) (started p) (openingQuestion p)
         (sessionRunId p) (elapsedTime p) (durationMinutes p) (summary p)
         (isCodeOpen p) (isLoadingLatest p) (latestSession p) (interview p)
         (sessions p) (startPending p) (sendCurrent p) (sendCount p) v.


(** ** Handlers and effects of [InterviewPage]

    Each one maps the rendered state to the next state and the requests
    it sends. *)

(** A string of the page is the sequence of its code units, one [ascii]
    each, so the embedding holds the strings whose code units are below
    256.  Among these the white space and line terminator code units of
    the language, which [String.prototype.trim] and [parseInt] skip, are
    U+0009 to U+000D, U+0020 and U+00A0 (no-break space); the others
    (U+1680, U+2000 to U+200A, U+2028, U+2029, U+202F, U+205F, U+3000,
    U+FEFF) lie above 255. *)
Definition isSpace (c : ascii) : bool :=
  let n := nat_of_ascii c in
  ((n =? 32) || ((9 <=? n) && (n <=? 13)) || (n =? 160))%nat.

Fixpoint trimStart (s : string) : string :=
  match s with
  | String c r => if isSpace c then trimStart r else s
  | EmptyString => EmptyString
  end.

Definition reverse (s : string) : string :=
  string_of_list_ascii (rev (list_ascii_of_string s)).

(** [String.prototype.trim]: white space is removed from both ends. *)
Definition trim (s : string) : string :=
  reverse (trimStart (reverse (trimStart s))).

(** No-break space, U+00A0. *)
Definition nbsp : string := String (ascii_of_nat 160) EmptyString.

(** [startInterviewMutation.mutate()] *)
Definition startMutate (p : Page) : Page * list Request :=
  (setStartPending true p, [StartInterview (interviewId p)]).

(** "Initialize from existing session if available" *)
Definition resumeEffect (p : Page) : Page * list Request :=
  if isLoadingLatest p then (p, [])
  else
    match latestSession p with
    | Some latest =>
        if isEndedSession latest then
          if negb (started p) && negb (startPending p)
          then startMutate p
          else (p, [])
        else if truthyOpt (InterviewSession.session_run_id latest) then
          (setStarted true
             (setSessionRunId (InterviewSession.session_run_id latest) p), [])
        else (p, [])
    | None =>
        if negb (started p) && negb (startPending p)
        then startMutate p
        else (p, [])
    end.

(** [startInterviewMutation.onSuccess].  The [setQueryData] call writes
    the cache entry keyed without a run identifier, which is not the entry
    the [sessions] query reads, so [sessions] is left as it is. *)
Definition startOnSuccess (data : StartInterviewResponse.t) (p : Page) : Page :=
  setStartPending false
    (setStarted true
       (setSessionRunId (Some (StartInterviewResponse.session_run_id data))
          (setOpeningQuestion
             (Some (StartInterviewResponse.opening_question data)) p))).

Definition startOnError (p : Page) : Page := setStartPending false p.

(** "Fetch interview details for duration" effect *)
Definition durationEffect (p : Page) : Page :=
  match interview p with
  | Some i => setDurationMinutes (Interview.duration_minutes i) p
  | None => p
  end.

(** [handleEndCall], up to the request; [runId] is the [sessionRunId] of
    the render that created the handler. *)
Definition handleEndCall (runId : option string) (p : Page) : Page * list Request :=
  (p, [EndInterview (interviewId p) (orUndefined runId)]).

(** [handleEndCall] after the response: a response with a non-empty
    summary shows the summary, anything else leaves for the dashboard. *)
Definition endOnResponse (response : option EndInterviewResponse.t) (p : Page) : Page :=
  match response with
  | Some r =>
      if truthyOpt (EndInterviewResponse.summary r)
      then setSummary (EndInterviewResponse.summary r) p
      else navigate OnDashboard p
  | None => navigate OnDashboard p
  end.

Definition endOnError (p : Page) : Page := navigate OnDashboard p.

(** *** Timer effect *)

(** What the interval callback closes over. *)
Record Timer : Type := mkTimer
  { startTime : option Z;
    timerDuration : Z;
    timerRunId : option string }.

(** [x >= y] where [x] may be [NaN]. *)
Definition numGe (x : option Z) (y : Z) : bool :=
  match x with Some v => y <=? v | None => false end.

(** [startTime] as the effect computes it; [getTime s] is
    [new Date(s).getTime()] ([None] for an invalid date) and [now] is
    [Date.now()], both in milliseconds; [elapsedTime > 0] is false for
    [NaN]. *)
Definition timerStartTime (getTime : string -> option Z) (now : Z) (p : Page)
  : option Z :=
  match find isOpeningSession (sessions p) with
  | Some startSession => getTime (InterviewSession.created_at startSession)
  | None =>
      match elapsedTime p with
      | Some e => if 0 <? e then Some (now - e * 1000) else Some now
      | None => Some now
      end
  end.

(** [Math.floor((now - startTime) / 1000)] *)
Definition secondsElapsed (t : Timer) (now : Z) : option Z :=
  match startTime t with
  | Some st => Some ((now - st) / 1000)
  | None => None
  end.

Definition updateTimer (t : Timer) (now : Z) (p : Page) : Page * list Request :=
  let s := secondsElapsed t now in
  let p' := setElapsedTime s p in
  if numGe s (timerDuration t * 60)
  then handleEndCall (timerRunId t) p'
  else (p', []).

(** The effect body: early return, closure, initial update.  The
    interval it installs is the returned [Timer]. *)
Definition timerEffect (getTime : string -> option Z) (now : Z) (p : Page)
  : Page * option Timer * list Request :=
  if negb (started p) || negb (truthyOpt (sessionRunId p))
  then (p, None, [])
  else
    let t := mkTimer (timerStartTime getTime now p)
                     (durationMinutes p) (sessionRunId p) in
    let '(p', rs) := updateTimer t now p in
    (p', Some t, rs).

(** *** Sending an answer *)

(** [sendMessageMutation.mutate(message)] *)
Definition sendMutate (message : string) (p : Page) : Page * list Request :=
  (setSend (Some (sendCount p)) (S (sendCount p)) p,
   [SendMessage (interviewId p) message (orUndefined (sessionRunId p))]).

Definition handleSendMessage (p : Page) : Page * list Request :=
  if negb (truthy (trim (userMessage p))) || sendPending p
  then (p, [])
  else sendMutate (trim (userMessage p)) p.

Definition nl : string := String (ascii_of_nat 10) EmptyString.

Definition formattedMessage (code language : string) : string :=
  "I have written the following " ++ language ++ " code:" ++ nl ++ nl
  ++ "```" ++ language ++ nl ++ code ++ nl ++ "```".

Definition handleCodeSubmit (code language : string) (p : Page)
  : Page * list Request :=
  let '(p', rs) := sendMutate (formattedMessage code language) p in
  (setIsCodeOpen false p', rs).

(** The observer stops pending when the mutation it follows settles. *)
Definition settleSend (mutation : nat) (p : Page) : Page :=
  match sendCurrent p with
  | Some m => if (m =? mutation)%nat then setSend None (sendCount p) p else p
  | None => p
  end.

(** [sendMessageMutation.onSuccess]; the invalidated query refetches
    and arrives later as new [sessions]. *)
Definition sendOnSuccess (mutation : nat) (data : SendMessageResponse.t)
    (p : Page) : Page :=
  settleSend mutation (setUserMessage "" p).

(** [sendMessageMutation.onError]: a toast, no state is written. *)
Definition sendOnError (mutation : nat) (p : Page) : Page :=
  settleSend mutation p.

(** ** The page as a transition system

    A [World] is the rendered state together with what lives outside
    React state: the interval installed by the timer effect, the requests
    sent so far (oldest first), the [sendMessage] calls and [endInterview]
    calls still awaiting their response. *)

Record World : Type := mkWorld
  { page : Page;
    timer : option Timer;
    requests : list Request;
    sendsInFlight : list nat;
    endsInFlight : nat }.

Definition mount (iid : string) : World :=
  mkWorld (initialPage iid) None [] [] 0%nat.

Inductive Event : Type :=
| LatestLoaded (data : option Turn)
| InterviewLoaded (data : Interview.t)
| SessionsLoaded (data : list Turn)
| StartSucceeded (data : StartInterviewResponse.t)
| StartFailed
| SendSucceeded (mutation : nat) (data : SendMessageResponse.t)
| SendFailed (mutation : nat)
| EndResponded (response : option EndInterviewResponse.t)
| EndFailed
| ResumeEffect
| DurationEffect
| TimerEffect (now : Z)
| Tick (now : Z)
| Typed (text : string)
| SubmitForm
| ToggleCode
| CodeSubmitted (code language : string)
| EndClicked.

Definition withPage (p : Page) (w : World) : World :=
  mkWorld p (timer w) (requests w) (sendsInFlight w) (endsInFlight w).

(** A handler ran: new state, requests appended to the log. *)
Definition after (r : Page * list Request) (w : World) : World :=
  mkWorld (fst r) (timer w) (requests w ++ snd r)
          (sendsInFlight w) (endsInFlight w).

Definition afterSend (r : Page * list Request) (w : World) : World :=
  mkWorld (fst r) (timer w) (requests w ++ snd r)
          (match snd r with
           | [] => sendsInFlight w
           | _ :: _ => sendsInFlight w ++ [sendCount (page w)]
           end)
          (endsInFlight w).

Definition afterEnd (r : Page * list Request) (w : World) : World :=
  mkWorld (fst r) (timer w) (requests w ++ snd r)
          (sendsInFlight w) (endsInFlight w + length (snd r))%nat.

Definition removeSend (mutation : nat) (w : World) : World :=
  mkWorld (page w) (timer w) (requests w)
          (filter (fun m => negb (m =? mutation)%nat) (sendsInFlight w))
          (endsInFlight w).

Definition sendInFlight (mutation : nat) (w : World) : bool :=
  existsb (fun m => (m =? mutation)%nat) (sendsInFlight w).

(** The chat column is rendered: no summary view and the code editor is
    closed. *)
Definition chatShown (p : Page) : bool :=
  negb (truthyOpt (summary p)) && negb (isCodeOpen p).

(** The chat input is enabled ([disabled={!started || isPending}]). *)
Definition inputEnabled (p : Page) : bool :=
  chatShown p && started p && negb (sendPending p).

(** One event.  Data events apply when their query or call is active,
    user events when the control is rendered and enabled; otherwise the
    world is unchanged.  Effects are events of their own: React runs
    them after a render, in source order, each on the state of that
    render, and a state update of one effect reaches the others with the
    next render.  After [navigate("/dashboard")] the page is unmounted
    and nothing happens any more. *)
Definition step (getTime : string -> option Z) (e : Event) (w : World) : World :=
  let p := page w in
  match location p with
  | OnDashboard => w
  | OnInterviewPage =>
      match e with
      | LatestLoaded data =>
          if negb (started p) then withPage (setLatest false data p) w else w
      | InterviewLoaded data => withPage (setInterview (Some data) p) w
      | SessionsLoaded data =>
          if started p && truthyOpt (sessionRunId p)
          then withPage (setSessions data p) w
          else w
      | StartSucceeded data =>
          if startPending p then withPage (startOnSuccess data p) w else w
      | StartFailed =>
          if startPending p then withPage (startOnError p) w else w
      | SendSucceeded m data =>
          if sendInFlight m w
          then removeSend m (withPage (sendOnSuccess m data p) w)
          else w
      | SendFailed m =>
          if sendInFlight m w
          then removeSend m (withPage (sendOnError m p) w)
          else w
      | EndResponded response =>
          match endsInFlight w with
          | O => w
          | S n =>
              mkWorld (endOnResponse response p) (timer w) (requests w)
                      (sendsInFlight w) n
          end
      | EndFailed =>
          match endsInFlight w with
          | O => w
          | S n =>
              mkWorld (endOnError p) (timer w) (requests w)
                      (sendsInFlight w) n
          end
      | ResumeEffect => after (resumeEffect p) w
      | DurationEffect => withPage (durationEffect p) w
      | TimerEffect now =>
          let '(p', t, rs) := timerEffect getTime now p in
          mkWorld p' t (requests w ++ rs) (sendsInFlight w)
                  (endsInFlight w + length rs)%nat
      | Tick now =>
          match timer w with
          | Some t => afterEnd (updateTimer t now p) w
          | None => w
          end
      | Typed text =>
          if inputEnabled p then withPage (setUserMessage text p) w else w
      | SubmitForm =>
          if chatShown p && started p
          then afterSend (handleSendMessage p) w
          else w
      | ToggleCode =>
          if negb (truthyOpt (summary p))
          then withPage (setIsCodeOpen (negb (isCodeOpen p)) p) w
          else w
      | CodeSubmitted code language =>
          if negb (truthyOpt (summary p)) && isCodeOpen p
          then afterSend (handleCodeSubmit code language p) w
          else w
      | EndClicked =>
          if negb (truthyOpt (summary p))
          then afterEnd (handleEndCall (sessionRunId p) p) w
          else w
      end
  end.

Definition run (getTime : string -> option Z) (es : list Event) (w : World) : World :=
  fold_left (fun w e => step getTime e w) es w.

(** ** The back end

    The REST service behind [lib/api.ts] is not among the front-end
    sources.  Its store and operations are modelled from the written
    specification (Turn Store, Session Run Resolver step 4, Turn-Taking
    State Machine), with the sentinel strings the page compares against. *)

Definition string_of_nat (n : nat) : string :=
  NilZero.string_of_uint (Nat.to_uint n).

Module Backend.

(** Modelled from the spec: the error taxonomy of the controller. *)
Inductive Error : Type :=
| RunTerminatedError
| OutOfTurnError
| GenerationFailedError
| NotFoundError.

(** Modelled from the spec: the states of the turn-taking machine. *)
Inductive RunState : Type :=
| AWAITING_CANDIDATE
| AWAITING_SYSTEM
| ENDED.

(** Modelled from the spec: the interviews, the append-only ledger of
    turns (oldest first), the number of session runs created so far and
    the runs with an answer in flight. *)
Record Store : Type := mk
  { interviews : list Interview.t;
    turns : list Turn;
    runsCreated : nat;
    inFlight : list string }.

Definition runIdOf (n : nat) : string := "run-" ++ string_of_nat n.
Definition turnIdOf (n : nat) : string := "turn-" ++ string_of_nat n.

Definition belongs (run : string) (t : Turn) : bool :=
  strictEqOpt run (InterviewSession.session_run_id t).

(** Modelled from the spec: [listByInterview], all turns of an
    interview across runs, oldest first. *)
Definition listByInterview (iid : string) (s : Store) : list Turn :=
  filter (fun t => (InterviewSession.interview_id t =? iid)%string) (turns s).

(** Modelled from the spec: [listByRun], the turns of one run, oldest
    first. *)
Definition listByRun (run : string) (s : Store) : list Turn :=
  filter (belongs run) (turns s).

(** Modelled from the spec: [latestForInterview], the most recently
    appended turn across any run. *)
Definition latestForInterview (iid : string) (s : Store) : option Turn :=
  last (map Some (listByInterview iid s)) None.

Definition hasTerminal (run : string) (s : Store) : bool :=
  existsb isEndedSession (listByRun run s).

Definition isInFlight (run : string) (s : Store) : bool :=
  existsb (String.eqb run) (inFlight s).

(** Modelled from the spec: the state of a run, [None] for an unknown
    run identifier. *)
Definition runState (run : string) (s : Store) : option RunState :=
  match listByRun run s with
  | [] => None
  | _ :: _ =>
      Some (if hasTerminal run s then ENDED
            else if isInFlight run s then AWAITING_SYSTEM
            else AWAITING_CANDIDATE)
  end.

Definition findInterview (iid : string) (s : Store) : option Interview.t :=
  find (fun i => (Interview.id i =? iid)%string) (interviews s).

(** Modelled from the spec: [append], which fails with
    [RunTerminatedError] once the run has a terminal turn. *)
Definition append (iid run systemMessage candidateMessage : string)
    (feedback : option string) (now : string) (s : Store)
  : Error + Turn * Store :=
  if hasTerminal run s then inl RunTerminatedError
  else
    let t := InterviewSession.mk (turnIdOf (length (turns s))) iid
               systemMessage candidateMessage feedback now (Some run) in
    inr (t, mk (interviews s) (turns s ++ [t]) (runsCreated s) (inFlight s)).

(** Modelled from the spec: starting a new run (resolver step 4).
    [opening] is the answer of the question-generation collaborator,
    [None] when it failed; then nothing is persisted. *)
Definition startRun (iid : string) (opening : option string) (now : string)
    (s : Store) : Error + StartInterviewResponse.t * Store :=
  match findInterview iid s with
  | None => inl NotFoundError
  | Some i =>
      match opening with
      | None => inl GenerationFailedError
      | Some q =>
          let run := runIdOf (runsCreated s) in
          let s1 := mk (interviews s) (turns s) (S (runsCreated s)) (inFlight s) in
          match append iid run q INTERVIEW_STARTED None now s1 with
          | inl e => inl e
          | inr (_, s2) =>
              inr (StartInterviewResponse.mk iid run q (Interview.title i)
                     (Interview.duration_minutes i) (Interview.cv_summary i)
                     (Interview.job_description i) "started", s2)
          end
      end
  end.

(** Modelled from the spec: the interview's current active run, the run
    of the latest turn unless that turn is terminal. *)
Definition activeRun (iid : string) (s : Store) : option string :=
  match latestForInterview iid s with
  | Some t =>
      if isEndedSession t then None else InterviewSession.session_run_id t
  | None => None
  end.

Definition resolveRun (iid : string) (run : option string) (s : Store)
  : option string :=
  match run with
  | Some r => Some r
  | None => activeRun iid s
  end.

Definition setInFlight (l : list string) (s : Store) : Store :=
  mk (interviews s) (turns s) (runsCreated s) l.

(** Modelled from the spec: [submitAnswer] is valid only in
    [AWAITING_CANDIDATE]; accepting it moves the run to
    [AWAITING_SYSTEM]. *)
Definition beginSubmit (run : string) (s : Store) : Error + Store :=
  match runState run s with
  | None => inl NotFoundError
  | Some AWAITING_CANDIDATE => inr (setInFlight (inFlight s ++ [run]) s)
  | Some _ => inl OutOfTurnError
  end.

Definition leaveFlight (run : string) (s : Store) : Store :=
  setInFlight (filter (fun r => negb (r =? run)%string) (inFlight s)) s.

(** Modelled from the spec: [submitAnswer].  [generate history text] is
    the collaborator's next question with optional feedback, [None] when
    it failed.  A failure appends nothing and returns the run to
    [AWAITING_CANDIDATE]. *)
Definition submitAnswer (iid run text : string)
    (generate : list Turn -> string -> option (string * option string))
    (now : string) (s : Store)
  : Store * (Error + SendMessageResponse.t) :=
  match beginSubmit run s with
  | inl e => (s, inl e)
  | inr s1 =>
      match generate (listByRun run s1) text with
      | None => (leaveFlight run s1, inl GenerationFailedError)
      | Some (question, fb) =>
          match append iid run question text fb now s1 with
          | inl e => (leaveFlight run s1, inl e)
          | inr (t, s2) =>
              (leaveFlight run s2,
               inr (SendMessageResponse.mk (InterviewSession.id t) question fb now))
          end
      end
  end.

(** Modelled from the spec: the summary stored with the terminal turn. *)
Definition existingSummary (run : string) (s : Store) : option string :=
  match find isEndedSession (listByRun run s) with
  | Some t => InterviewSession.feedback t
  | None => None
  end.

(** Modelled from the spec: [endRun].  From a non-terminal state it
    appends the terminal turn with the optional summary; on an ended
    run it appends nothing and returns the stored summary.
    [summarize history] is the best-effort summary request. *)
Definition endRun (iid run : string)
    (summarize : list Turn -> option string) (now : string) (s : Store)
  : Store * (Error + EndInterviewResponse.t) :=
  match runState run s with
  | None => (s, inl NotFoundError)
  | Some ENDED =>
      (s, inr (EndInterviewResponse.mk "ended" iid (Some run)
                 (existingSummary run s)))
  | Some _ =>
      let summary := summarize (listByRun run s) in
      match append iid run "" SESSION_ENDED summary now s with
      | inl e => (s, inl e)
      | inr (_, s1) =>
          (s1, inr (EndInterviewResponse.mk "ended" iid (Some run) summary))
      end
  end.

(** Modelled from the spec: [POST end(interviewId, sessionRunId?)]; an
    omitted run resolves to the interview's current active run. *)
Definition endInterview (iid : string) (run : option string)
    (summarize : list Turn -> option string) (now : string) (s : Store)
  : Store * (Error + EndInterviewResponse.t) :=
  match resolveRun iid run s with
  | Some r => endRun iid r summarize now s
  | None => (s, inl NotFoundError)
  end.

(** Modelled from the spec: [listByRun] scoped to the interview, as the
    sessions endpoint of [lib/api.ts] takes both identifiers; without a
    run it is [listByInterview]. *)
Definition getInterviewSessions (iid : string) (run : option string)
    (s : Store) : list Turn :=
  match run with
  | Some r => filter (belongs r) (listByInterview iid s)
  | None => listByInterview iid s
  end.

End Backend.

(** ** The page against the back end *)

(** The external collaborators' answers at one request: the opening
    question, the next question with optional feedback, the best-effort
    summary; [None] is a failed generation. *)
Record Collaborator : Type := mkCollaborator
  { generateOpening : option string;
    generateNext : list Turn -> string -> option (string * option string);
    generateSummary : list Turn -> option string }.

Inductive Response : Type :=
| StartOk (data : StartInterviewResponse.t)
| SendOk (data : SendMessageResponse.t)
| EndOk (data : EndInterviewResponse.t)
| Failed (e : Backend.Error).

(** The back end answers one request of the page.  A start call opens
    a run every time ([lib/api.ts]: "Each start creates a new session
    run"); [sendMessage] without a run identifier uses the interview's
    current run. *)
Definition serve (c : Collaborator) (now : string) (r : Request)
    (s : Backend.Store) : Backend.Store * Response :=
  match r with
  | StartInterview iid =>
      match Backend.startRun iid (generateOpening c) now s with
      | inr (data, s') => (s', StartOk data)
      | inl e => (s, Failed e)
      end
  | SendMessage iid text run =>
      match Backend.resolveRun iid run s with
      | Some r =>
          match Backend.submitAnswer iid r text (generateNext c) now s with
          | (s', inr data) => (s', SendOk data)
          | (s', inl e) => (s', Failed e)
          end
      | None => (s, Failed Backend.NotFoundError)
      end
  | EndInterview iid run =>
      match Backend.endInterview iid run (generateSummary c) now s with
      | (s', inr data) => (s', EndOk data)
      | (s', inl e) => (s', Failed e)
      end
  end.


(** The candidate submits the chat form; when that sent a request, the
    back end answers it. *)
Definition sendRound (getTime : string -> option Z) (c : Collaborator)
    (now : string) (w : World) (s : Backend.Store)
  : World * Backend.Store * option Response :=
  let m := sendCount (page w) in
  let w1 := step getTime SubmitForm w in
  match skipn (length (requests w)) (requests w1) with
  | [] => (w1, s, None)
  | r :: _ =>
      match serve c now r s with
      | (s', SendOk data) => (step getTime (SendSucceeded m data) w1, s', Some (SendOk data))
      | (s', resp) => (step getTime (SendFailed m) w1, s', Some resp)
      end
  end.

(** *** The older revision of the page

    It has no latest-session query and no resume effect: its one effect
    on mount is "Auto-start interview on mount - ALWAYS creates a new
    session run".  Its start mutation and its sessions query are those of
    the current page, so [startOnSuccess], [startOnError] and
    [setSessions] serve for both; the state the older page does not have
    stays at its initial value. *)

Definition autoStartEffect_old (p : Page) : Page * list Request :=
  if truthy (interviewId p) && negb (started p) && negb (startPending p)
  then startMutate
         (setStarted false (setOpeningQuestion None (setSessionRunId None p)))
  else (p, []).

(** Entering an interview on the older page: mount, the auto-start
    effect, the start call it issued, and the sessions query of the run
    the page then holds. *)
Definition enterInterview_old (c : Collaborator) (now iid : string)
    (s : Backend.Store) : Page * Backend.Store :=
  let '(p1, rs) := autoStartEffect_old (initialPage iid) in
  let '(p2, s2) :=
    match rs with
    | [] => (p1, s)
    | r :: _ =>
        match serve c now r s with
        | (s', StartOk data) => (startOnSuccess data p1, s')
        | (s', _) => (startOnError p1, s')
        end
    end in
  (if started p2 && truthyOpt (sessionRunId p2)
   then setSessions
          (Backend.getInterviewSessions iid (sessionRunId p2) s2) p2
   else p2,
   s2).

(** ** [StartInterviewForm] *)

Module StartInterviewForm.

(** The numbers the duration field meets: an integer, [NaN] or an
    infinity. *)
Inductive Number : Type :=
| NaN
| Finite (z : Z)
| Infinite (negative : bool).

(** The number value of a mathematical integer: the nearest double,
    a tie going to the even significand, and an infinity from
    [2^1024 - 2^970] on.  Integers below [2^53] in magnitude are doubles
    themselves. *)
Definition toNumber (z : Z) : Number :=
  let a := Z.abs z in
  if a <? 9007199254740992 then Finite z
  else
    let e := Z.log2 a - 52 in
    let q := Z.shiftr a e in
    let r := a - Z.shiftl q e in
    let half := Z.shiftl 1 (e - 1) in
    let q' := if (half <? r) || ((r =? half) && Z.odd q) then q + 1 else q in
    let m := Z.shiftl q' e in
    if Z.shiftl 1 1024 <=? m then Infinite (z <? 0)
    else Finite (Z.sgn z * m).

(** The [interview] prop and the two fields that reach the create or
    update request.  The job description and CV fields only feed the
    uploads that follow. *)
Record State : Type := mk
  { interview : option Interview.t;
    title : string;
    durationMinutes : Number }.

(** [n || 30] on a number: [NaN] and [0] are falsy. *)
Definition orDefault (n : Number) : Number :=
  match n with
  | NaN => Finite 30
  | Finite v => if v =? 0 then Finite 30 else n
  | Infinite _ => n
  end.

Definition isDigit (c : ascii) : bool :=
  let n := nat_of_ascii c in ((48 <=? n) && (n <=? 57))%nat.

(** The integer a leading run of decimal digits denotes, exactly;
    [None] when there is no digit. *)
Fixpoint digits (acc : option Z) (s : string) : option Z :=
  match s with
  | String c r =>
      if isDigit c
      then digits (Some (match acc with Some a => a | None => 0 end * 10
                         + Z.of_nat (nat_of_ascii c - 48))) r
      else acc
  | EmptyString => acc
  end.

(** [parseInt] in base ten: leading white space, an optional sign, then
    the longest run of digits; [NaN] without a digit, else the number
    value of the signed integer (of its exact value, which is what the
    language asks for up to twenty digits and allows beyond).  The value
    of a number input is empty or a decimal literal, so no other radix
    prefix reaches it. *)
Definition parseInt (s : string) : Number :=
  let number (sign : Z) (r : string) :=
    match digits None r with
    | Some v => toNumber (sign * v)
    | None => NaN
    end in
  match trimStart s with
  | String "-" r => number (-1) r
  | String "+" r => number 1 r
  | r => number 1 r
  end.

Definition init (i : option Interview.t) : State :=
  match i with
  | Some x => mk i (Interview.title x)
                 (orDefault (Finite (Interview.duration_minutes x)))
  | None => mk None "" (Finite 30)
  end.

(** The calls of the API client, [api.createInterview] and
    [api.updateInterview], with the data they are given. *)
Inductive Request : Type :=
| CreateInterview (title : string) (duration_minutes : Number)
| UpdateInterview (interviewId : string) (title : string)
                  (duration_minutes : Number).

Definition requestTitle (r : Request) : string :=
  match r with
  | CreateInterview t _ | UpdateInterview _ t _ => t
  end.


(** [createInterviewMutation.mutationFn] *)
Definition mutationFn (st : State) : Request :=
  match interview st with
  | Some i => UpdateInterview (Interview.id i) (title st) (durationMinutes st)
  | None => CreateInterview (title st) (durationMinutes st)
  end.

Definition handleSubmit (st : State) : list Request :=
  if negb (truthy (trim (title st))) then [] else [mutationFn st].



Inductive Event : Type :=
| InterviewProp (i : Interview.t)
| TitleChanged (value : string)
| DurationChanged (value : string)
| Reset.

Definition step (e : Event) (st : State) : State :=
  match e with
  | InterviewProp i =>
      mk (Some i) (Interview.title i)
         (orDefault (Finite (Interview.duration_minutes i)))
  | TitleChanged v => mk (interview st) v (durationMinutes st)
  | DurationChanged v => mk (interview st) (title st) (orDefault (parseInt v))
  | Reset =>
      match interview st with
      | Some _ => st
      | None => mk None "" (Finite 30)
      end
  end.

Definition run (es : list Event) (st : State) : State :=
  fold_left (fun st e => step e st) es st.

End StartInterviewForm.

(** ** Properties named in the statements below *)

(** A transcript entry that comes from turn [t]. *)
Definition derivedFrom (t : Turn) (m : Message.t) : Prop :=
  m = aiMessageOf t \/ m = userMessageOf t.

(** "The terminal turn contributes nothing to the visible transcript." *)
Definition terminalTurnHidden (nowIso : string) (openingQuestion : option string)
    (earlier : list Turn) (terminal : Turn) : Prop :=
  forall m, In m (messages nowIso openingQuestion (earlier ++ [terminal])) ->
            ~ derivedFrom terminal m.

(** The page right after the latest-session query answered [latest]. *)
Definition entering (iid : string) (latest : option Turn) : Page :=
  setLatest false latest (initialPage iid).

Definition startsNewRun (p : Page) : Prop :=
  snd (resumeEffect p) = [StartInterview (interviewId p)].

Definition resumesRun (run : option string) (p : Page) : Prop :=
  resumeEffect p = (setStarted true (setSessionRunId run p), []).

Definition noTurnOrEnded (latest : option Turn) : Prop :=
  match latest with
  | None => True
  | Some t => isEndedSession t = true
  end.

(** The resolver rule with "in every other case it resumes". *)
Definition resolverAsStated (iid : string) (latest : option Turn) : Prop :=
  (startsNewRun (entering iid latest) <-> noTurnOrEnded latest)
  /\ (~ noTurnOrEnded latest ->
      exists run, resumesRun (Some run) (entering iid latest)).

(** A latest turn that is neither terminal nor tied to a run. *)
Definition stuckTurn (t : Turn) : bool :=
  negb (isEndedSession t)
  && negb (truthyOpt (InterviewSession.session_run_id t)).

Definition latestStaysStuck (e : Event) : bool :=
  match e with
  | LatestLoaded (Some t) => stuckTurn t
  | LatestLoaded None => false
  | _ => true
  end.

Definition isStart (r : Request) : bool :=
  match r with StartInterview _ => true | _ => false end.

Definition isCodeSubmitted (e : Event) : bool :=
  match e with CodeSubmitted _ _ => true | _ => false end.

(** What holds of the page as long as every answer of the latest-session
    query is such a turn. *)
Definition idle (w : World) : Prop :=
  started (page w) = false
  /\ sessionRunId (page w) = None
  /\ startPending (page w) = false
  /\ (isLoadingLatest (page w) = true
      \/ exists t, latestSession (page w) = Some t /\ stuckTurn t = true)
  /\ forallb (fun r => negb (isStart r)) (requests w) = true.

(** The chat form's discipline: the only [sendMessage] call awaiting
    its response is the one the mutation observer follows. *)
Definition singleFlight (w : World) : Prop :=
  sendsInFlight w = match sendCurrent (page w) with
                    | Some m => [m]
                    | None => []
                    end.

(** The interval callback asks to end the run at time [now]. *)
Definition firesAt (t : Timer) (now : Z) (p : Page) : Prop :=
  snd (updateTimer t now p)
  = [EndInterview (interviewId p) (orUndefined (timerRunId t))].



(** "The first turn shows only its system message, every later turn the
    candidate's message and then the system message", for a way
    [render] of showing a stored history. *)
Definition answerBeforeQuestion (render : list Turn -> list Message.t)
    (first : Turn) (rest : list Turn) : Prop :=
  render (first :: rest)
  = Message.mk (InterviewSession.id first) ai
               (InterviewSession.ai_message first)
               (InterviewSession.feedback first)
               (InterviewSession.created_at first)
    :: flat_map
         (fun t =>
            [Message.mk (InterviewSession.id t ++ "-user") user
                        (InterviewSession.user_message t) None
                        (InterviewSession.created_at t);
             Message.mk (InterviewSession.id t) ai
                        (InterviewSession.ai_message t)
                        (InterviewSession.feedback t)
                        (InterviewSession.created_at t)])
         rest.



Definition isEndResponded (e : Event) : bool :=
  match e with EndResponded _ => true | _ => false end.


(** ** A sample interview *)

Module Scenario.

Definition T0 : Z := 1735725600000.
Definition minute : Z := 60000.

Definition getTime (s : string) : option Z :=
  if (s =? "2025-01-01T10:00:00Z")%string then Some T0
  else if (s =? "2025-01-01T10:05:00Z")%string then Some (T0 + 5 * minute)
  else None.

Definition interview60 : Interview.t :=
  Interview.mk "interview-0" "user-1" "Backend engineer" 60 None None
               "2025-01-01T09:00:00Z".

Definition opening : Turn :=
  InterviewSession.mk "turn-0" "interview-0" "Tell me about yourself."
    INTERVIEW_STARTED None "2025-01-01T10:00:00Z" (Some "run-0").

Definition answer : Turn :=
  InterviewSession.mk "turn-1" "interview-0" "How did you evict entries?"
    "I built a cache" (Some "Clear answer.") "2025-01-01T10:05:00Z"
    (Some "run-0").

Definition terminal : Turn :=
  InterviewSession.mk "turn-2" "interview-0" "" SESSION_ENDED
    (Some "Solid session.") "2025-01-01T10:15:01Z" (Some "run-0").

(** A turn written through the legacy endpoint, without a run. *)
Definition legacy : Turn :=
  InterviewSession.mk "turn-9" "interview-0" "Why this role?"
    "Because I like caches" None "2024-12-01T10:00:00Z" None.

Definition store : Backend.Store :=
  Backend.mk [interview60] [opening; answer] 1%nat [].

(** The interview before its first run. *)
Definition fresh : Backend.Store :=
  Backend.mk [interview60] [] 0%nat [].

Definition collaborator : Collaborator :=
  mkCollaborator (Some "Tell me about yourself.")
                 (fun _ _ => Some ("And then?", None))
                 (fun _ => Some "Solid session.").

Definition failing : Collaborator :=
  mkCollaborator None (fun _ _ => None) (fun _ => None).

(** The run is resumed 31 minutes after its opening turn and its
    history arrives before the interview details do. *)
Definition resumedBeforeDetails : list Event :=
  [ LatestLoaded (Backend.latestForInterview "interview-0" store);
    ResumeEffect;
    TimerEffect (T0 + 31 * minute);
    SessionsLoaded
      (Backend.getInterviewSessions "interview-0" (Some "run-0") store);
    TimerEffect (T0 + 31 * minute) ].

(** The same entry with the interview details arriving first. *)
Definition resumedAfterDetails : list Event :=
  [ LatestLoaded (Backend.latestForInterview "interview-0" store);
    ResumeEffect;
    TimerEffect (T0 + 31 * minute);
    InterviewLoaded interview60;
    DurationEffect;
    TimerEffect (T0 + 31 * minute);
    SessionsLoaded
      (Backend.getInterviewSessions "interview-0" (Some "run-0") store);
    TimerEffect (T0 + 31 * minute) ].

(** An answer is sent from the chat form and, while it is awaiting its
    response, code is submitted from the editor. *)
Definition answerThenCode : list Event :=
  [ LatestLoaded (Some answer);
    ResumeEffect;
    Typed "I used LRU";
    SubmitForm;
    ToggleCode;
    CodeSubmitted "print(1)" "python" ].

(** The run is resumed, its history loaded and an answer typed. *)
Definition answerTyped : list Event :=
  [ LatestLoaded (Some answer);
    ResumeEffect;
    SessionsLoaded [opening; answer];
    Typed " I used LRU " ].

End Scenario.

(** ** More of the pages

    The remaining pieces of [InterviewPage], [ChatMessage],
    [StartInterviewForm], [Dashboard] and [TypingEffect], and the
    predicates their properties are stated with.  A string is its
    sequence of code units: [length], [substring] and indexing count
    them as the JavaScript operations do. *)

From Stdlib Require Import DecimalPos.

(** [Number.prototype.toString] on an integer. *)
Definition toStringZ (z : Z) : string := NilZero.string_of_int (Z.to_int z).

Fixpoint zeros (n : nat) : string :=
  match n with
  | O => EmptyString
  | S k => String "0" (zeros k)
  end.

(** [s.padStart(target, "0")] *)
Definition padStart0 (target : nat) (s : string) : string :=
  zeros (target - String.length s) ++ s.

(** [formatTime] of the current page; [seconds % 60] takes the sign of
    [seconds], and [NaN] prints as such. *)
Definition formatTime (seconds : option Z) : string :=
  match seconds with
  | Some s =>
      padStart0 2 (toStringZ (s / 60)) ++ ":"
      ++ padStart0 2 (toStringZ (Z.rem s 60))
  | None => "NaN:NaN"
  end.

(** The two decimal digits of a number below one hundred. *)
Definition twoDigits (n : Z) : string :=
  String (ascii_of_nat (48 + Z.to_nat (n / 10)))
         (String (ascii_of_nat (48 + Z.to_nat (n mod 10))) EmptyString).

Definition firstIsSpace (s : string) : bool :=
  match s with
  | String c _ => isSpace c
  | EmptyString => false
  end.

Definition lastIsSpace (s : string) : bool := firstIsSpace (reverse s).

Definition isAi (m : Message.t) : bool :=
  match Message.role m with ai => true | user => false end.

Definition isStartSettled (e : Event) : bool :=
  match e with
  | StartSucceeded _ | StartFailed => true
  | _ => false
  end.

Definition startsSent (w : World) : nat :=
  length (filter isStart (requests w)).

(** A request for interview [iid] whose run identifier, when it has one,
    is not the empty string. *)
Definition requestFor (iid : string) (r : Request) : bool :=
  match r with
  | StartInterview i => (i =? iid)%string
  | SendMessage i _ run | EndInterview i run =>
      (i =? iid)%string
      && match run with Some x => truthy x | None => true end
  end.

(** What the send bookkeeping keeps: the calls awaiting a response are
    numbered apart, below the next number, and the call the observer
    follows is one of them. *)
Definition sendsConsistent (w : World) : Prop :=
  NoDup (sendsInFlight w)
  /\ (forall m, In m (sendsInFlight w) -> (m < sendCount (page w))%nat)
  /\ (forall m, sendCurrent (page w) = Some m -> In m (sendsInFlight w)).

Module ChatMessage.

(** [{isAI && feedback && (...)}]: the feedback box is rendered. *)
Definition showsFeedback (m : Message.t) : bool :=
  isAi m && truthyOpt (Message.feedback m).

End ChatMessage.

(** The document fields of [StartInterviewForm]. *)
Module Documents.

Record File : Type := mkFile
  { name : string;
    type : string }.

Record State : Type := mk
  { jobDescriptionText : string;
    jobDescriptionFile : option File;
    cvFile : option File }.

Definition init : State := mk "" None None.

Definition isPdf (f : File) : bool := (type f =? "application/pdf")%string.

(** [file] is [e.target.files?.[0]]. *)
Definition handleJobDescriptionFileChange (file : option File) (st : State)
  : State :=
  match file with
  | Some f =>
      if negb (isPdf f) then st
      else mk "" (Some f) (cvFile st)
  | None => st
  end.

Definition handleCVFileChange (file : option File) (st : State) : State :=
  match file with
  | Some f =>
      if negb (isPdf f) then st
      else mk (jobDescriptionText st) (jobDescriptionFile st) (Some f)
  | None => st
  end.

Definition removeJobDescriptionFile (st : State) : State :=
  mk (jobDescriptionText st) None (cvFile st).

Definition removeCVFile (st : State) : State :=
  mk (jobDescriptionText st) (jobDescriptionFile st) None.

(** [onChange] of the text area. *)
Definition onJobDescriptionTextChange (value : string) (st : State) : State :=
  mk value
     (if truthy value then None else jobDescriptionFile st)
     (cvFile st).

Inductive Event : Type :=
| JobDescriptionFileChanged (file : option File)
| CVFileChanged (file : option File)
| JobDescriptionFileRemoved
| CVFileRemoved
| JobDescriptionTextChanged (value : string)
| Reset.

(** The text area is [disabled] while a job description file is set;
    the remove buttons are rendered only beside a file. *)
Definition step (e : Event) (st : State) : State :=
  match e with
  | JobDescriptionFileChanged f => handleJobDescriptionFileChange f st
  | CVFileChanged f => handleCVFileChange f st
  | JobDescriptionFileRemoved => removeJobDescriptionFile st
  | CVFileRemoved => removeCVFile st
  | JobDescriptionTextChanged v =>
      match jobDescriptionFile st with
      | Some _ => st
      | None => onJobDescriptionTextChange v st
      end
  | Reset => init
  end.

Definition run (es : list Event) (st : State) : State :=
  fold_left (fun st e => step e st) es st.

Inductive Upload : Type :=
| ProcessJobDescriptionText (interviewId text : string)
| UploadJobDescription (interviewId : string) (file : File)
| UploadCV (interviewId : string) (file : File).

(** [uploadPromises] of [createInterviewMutation.onSuccess]. *)
Definition uploadPromises (interviewId : string) (st : State) : list Upload :=
  (if truthy (jobDescriptionText st)
      && match jobDescriptionFile st with Some _ => false | None => true end
   then [ProcessJobDescriptionText interviewId (jobDescriptionText st)]
   else match jobDescriptionFile st with
        | Some f => [UploadJobDescription interviewId f]
        | None => []
        end)
  ++ match cvFile st with
     | Some f => [UploadCV interviewId f]
     | None => []
     end.

Definition uploadedFile (u : Upload) : option File :=
  match u with
  | ProcessJobDescriptionText _ _ => None
  | UploadJobDescription _ f | UploadCV _ f => Some f
  end.

(** The "Current: ..." line of the edit form:
    [text.substring(0, 100)] and ["..."] when the text is longer. *)
Definition preview (text : string) : string :=
  substring 0 100 text ++ (if (100 <? String.length text)%nat then "..." else "").

End Documents.

Module Dashboard.

Record State : Type := mk
  { showForm : bool;
    editingInterview : option Interview.t }.

Definition init : State := mk false None.

Definition handleInterviewCreated (st : State) : State := mk false None.

Definition handleEditClick (interview : Interview.t) (st : State) : State :=
  mk true (Some interview).

Definition handleEditSuccess (st : State) : State := mk false None.

Definition handleEditCancel (st : State) : State := mk false None.

(** The [onSuccess] and [onCancel] props handed to the form. *)
Definition onSuccess (st : State) : State :=
  match editingInterview st with
  | Some _ => handleEditSuccess st
  | None => handleInterviewCreated st
  end.

Definition onCancel (st : State) : State :=
  match editingInterview st with
  | Some _ => handleEditCancel st
  | None => mk false (editingInterview st)
  end.

Inductive Event : Type :=
| StartNewClicked
| EditClicked (interview : Interview.t)
| FormSucceeded
| FormCancelled.

(** The form, and with it its callbacks, exists only while [showForm];
    the buttons of the list are always there. *)
Definition step (e : Event) (st : State) : State :=
  match e with
  | StartNewClicked => mk true (editingInterview st)
  | EditClicked i => handleEditClick i st
  | FormSucceeded => if showForm st then onSuccess st else st
  | FormCancelled => if showForm st then onCancel st else st
  end.

Definition run (es : list Event) (st : State) : State :=
  fold_left (fun st e => step e st) es st.

(** The job description and CV summary lines of an interview card. *)
Definition preview (text : string) : string :=
  if (100 <? String.length text)%nat then substring 0 100 text ++ "..." else text.

End Dashboard.

Module TypingEffect.

Record State : Type := mk
  { displayText : string;
    currentIndex : nat }.

Definition init : State := mk "" 0%nat.

(** The typing effect: while [currentIndex < text.length] a timeout is
    armed, and when it fires it appends [text[currentIndex]] and moves
    on; past the end no timeout is armed. *)
Definition timeoutFires (text : string) (st : State) : State :=
  if (currentIndex st <? String.length text)%nat
  then mk (displayText st ++ substring (currentIndex st) 1 text)
          (S (currentIndex st))
  else st.

Fixpoint after (n : nat) (text : string) (st : State) : State :=
  match n with
  | O => st
  | S k => after k text (timeoutFires text st)
  end.

End TypingEffect.

(** A request that carries an answer. *)
Definition isSend (r : Request) : bool :=
  match r with SendMessage _ _ _ => true | _ => false end.

(** The chat is gone: the summary view is up or the page was left. *)
Definition chatClosed (w : World) : Prop :=
  truthyOpt (summary (page w)) = true \/ location (page w) = OnDashboard.

(** With [n] start responses delivered, at most [n] start requests are
    answered and at most one is outstanding. *)
Definition startsWithin (n : nat) (w : World) : Prop :=
  (startsSent w + (if startPending (page w) then 0 else 1) <= S n)%nat.

Definition requestsFor (iid : string) (w : World) : Prop :=
  interviewId (page w) = iid
  /\ forallb (requestFor iid) (requests w) = true.

(** Every file the form holds is a PDF. *)
Definition filesArePdf (st : Documents.State) : Prop :=
  (forall f, Documents.jobDescriptionFile st = Some f -> Documents.isPdf f = true)
  /\ (forall f, Documents.cvFile st = Some f -> Documents.isPdf f = true).

(** Pasted text and a chosen file exclude one another. *)
Definition textOrFile (st : Documents.State) : Prop :=
  truthy (Documents.jobDescriptionText st) = true ->
  Documents.jobDescriptionFile st = None.

(** [api.getInterviewSessions]: the URL it fetches, [base] being
    [API_BASE_URL]; a falsy run identifier selects the unfiltered list. *)
Definition sessionsUrl (base interviewId : string) (sessionRunId : option string)
  : string :=
  match orUndefined sessionRunId with
  | Some r =>
      base ++ "/api/interviews/" ++ interviewId
      ++ "/sessions?session_run_id=" ++ r
  | None => base ++ "/api/interviews/" ++ interviewId ++ "/sessions"
  end.

(** The sessions query of [InterviewPage]: what it fetches while it is
    enabled ([!!interviewId && started && !!sessionRunId]). *)
Definition sessionsQuery (base : string) (p : Page) : option string :=
  if truthy (interviewId p) && started p && truthyOpt (sessionRunId p)
  then Some (sessionsUrl base (interviewId p) (orUndefined (sessionRunId p)))
  else None.

(** ** [CodeEditor] and the page around it *)

Module CodeEditor.

Record State : Type := mk
  { code : string;
    language : string }.

(** The two [useState] initial values; [initialCode] defaults to [""]. *)
Definition init (initialCode : string) : State :=
  mk (if truthy initialCode then initialCode
      else "# Write your code here" ++ nl)
     "python".

(** [onChange] of the editor: [setCode(value || "")]. *)
Definition onChange (value : option string) (st : State) : State :=
  mk (match value with Some v => v | None => "" end) (language st).

Definition setLanguage (value : string) (st : State) : State :=
  mk (code st) value.

(** [handleSubmit]: what it hands to [onSubmit]. *)
Definition handleSubmit (st : State) : string * string :=
  (code st, language st).

End CodeEditor.

(** The page renders [<CodeEditor>] in place of the chat while
    [isCodeOpen], and nothing of either in the summary view. *)
Definition editorRendered (p : Page) : bool :=
  match location p with
  | OnInterviewPage => negb (truthyOpt (summary p)) && isCodeOpen p
  | OnDashboard => false
  end.

(** The page together with the state of its code editor, which exists
    while the editor is rendered: React keeps it from one render to the
    next and creates it anew, from the initial values, when the editor is
    rendered again after it was not.  The page passes no [initialCode]. *)
Record Desk : Type := mkDesk
  { world : World;
    editor : option CodeEditor.State }.

Definition render (w : World) (previous : option CodeEditor.State) : Desk :=
  mkDesk w
    (if editorRendered (page w)
     then Some (match previous with
                | Some st => st
                | None => CodeEditor.init ""
                end)
     else None).

Definition mountDesk (iid : string) : Desk := render (mount iid) None.

Inductive DeskEvent : Type :=
| OnPage (e : Event)
| CodeChanged (value : option string)
| LanguageChanged (value : string)
| RunAndSubmit.

(** The editor's "Run & Submit" button calls the page's
    [handleCodeSubmit] with the editor's code and language. *)
Definition deskStep (getTime : string -> option Z) (e : DeskEvent) (d : Desk)
  : Desk :=
  match e with
  | OnPage e => render (step getTime e (world d)) (editor d)
  | CodeChanged v =>
      mkDesk (world d) (option_map (CodeEditor.onChange v) (editor d))
  | LanguageChanged v =>
      mkDesk (world d) (option_map (CodeEditor.setLanguage v) (editor d))
  | RunAndSubmit =>
      match editor d with
      | Some st =>
          let '(code, language) := CodeEditor.handleSubmit st in
          render (step getTime (CodeSubmitted code language) (world d))
                 (editor d)
      | None => d
      end
  end.

Definition deskRun (getTime : string -> option Z) (es : list DeskEvent)
    (d : Desk) : Desk :=
  fold_left (fun d e => deskStep getTime e d) es d.

Module Samples.

(** The sample run resumed by a freshly loaded page. *)
Definition resumed : World :=
  run Scenario.getTime [LatestLoaded (Some Scenario.answer); ResumeEffect]
      (mount "interview-0").

(** The interval of a sixty-minute interview opened at [Scenario.T0]. *)
Definition clock : Timer := mkTimer (Some Scenario.T0) 60 (Some "run-0").

Definition ticking : World :=
  mkWorld (page resumed) (Some clock) [] [] 0%nat.

(** An opening turn whose timestamp is not a date. *)
Definition unreadable : Turn :=
  InterviewSession.mk "turn-0" "interview-0" "Tell me about yourself."
    INTERVIEW_STARTED None "yesterday" (Some "run-0").

Definition cv : Documents.File :=
  Documents.mkFile "cv.pdf" "application/pdf".

Definition jobAd : Documents.File :=
  Documents.mkFile "job.pdf" "application/pdf".

Definition notes : Documents.File :=
  Documents.mkFile "notes.txt" "text/plain".

(** The run is resumed, the editor opened and code typed into it. *)
Definition codeTyped : list DeskEvent :=
  [ OnPage (LatestLoaded (Some Scenario.answer));
    OnPage ResumeEffect;
    OnPage (SessionsLoaded [Scenario.opening; Scenario.answer]);
    OnPage ToggleCode;
    CodeChanged (Some "print(1)") ].

End Samples.

(** * Theorems *)

(** ** Proof steps shared by the properties of the page *)

(** Opens every branch of one event. *)
Ltac step_cases :=
  unfold step, after, afterSend, afterEnd, withPage, removeSend,
    resumeEffect, startMutate, timerEffect, updateTimer, handleEndCall,
    handleSendMessage, handleCodeSubmit, sendMutate, sendOnSuccess,
    sendOnError, settleSend, endOnResponse, endOnError, startOnSuccess,
    startOnError, durationEffect;
  repeat (cbn [fst snd];
          match goal with
          | |- context [match ?x with _ => _ end] =>
              lazymatch x with
              | context [match _ with _ => _ end] => fail
              | _ => destruct x eqn:?
              end
          end);
  cbn [fst snd].

Ltac page_fields :=
  cbn [page requests timer sendsInFlight endsInFlight summary location
       started startPending sessionRunId interviewId sendCurrent sendCount
       fst snd setLatest setInterview setSessions setStartPending setStarted
       setSessionRunId setOpeningQuestion setUserMessage setSend setSummary
       setElapsedTime setDurationMinutes setIsCodeOpen navigate].

Ltac page_fields_everywhere :=
  cbn [page requests timer sendsInFlight endsInFlight summary location
       started startPending sessionRunId interviewId sendCurrent sendCount
       fst snd setLatest setInterview setSessions setStartPending setStarted
       setSessionRunId setOpeningQuestion setUserMessage setSend setSummary
       setElapsedTime setDurationMinutes setIsCodeOpen navigate] in *.

Lemma run_cons getTime (e : Event) (es : list Event) (w : World) :
  run getTime (e :: es) w = run getTime es (step getTime e w).
Proof. reflexivity. Qed.

(** ** Transcript reconstruction *)

Lemma openingMessages_nonempty nowIso oq (t : Turn) (l : list Turn) :
  openingMessages nowIso oq (t :: l) = [].
Proof.
  unfold openingMessages. destruct oq as [q|]; [|reflexivity].
  cbn [length Nat.eqb]. rewrite andb_false_r. reflexivity.
Qed.

Lemma openingMessages_snoc nowIso oq (l : list Turn) (t : Turn) :
  openingMessages nowIso oq (l ++ [t]) = [].
Proof.
  destruct l; apply openingMessages_nonempty.
Qed.

Lemma ended_is_not_opening (t : Turn) :
  isEndedSession t = true -> isOpeningSession t = false.
Proof.
  unfold isEndedSession, isOpeningSession. intros H.
  apply String.eqb_eq in H. rewrite H. reflexivity.
Qed.

(** What the older revision of the page shows for the stored run of
    the sample, the opening turn followed by the turn that pairs the
    answer "I built a cache" with the next question: nothing for the
    opening turn, and the next question before the answer it follows. *)
Lemma older_page_puts_question_first
    (nowIso : string) (openingQuestion : option string) :
  messages_old nowIso openingQuestion [Scenario.opening; Scenario.answer]
  = [ Message.mk "turn-1" ai "How did you evict entries?"
                 (Some "Clear answer.") "2025-01-01T10:05:00Z";
      Message.mk "turn-1-user" user "I built a cache" None
                 "2025-01-01T10:05:00Z" ].
Proof.
  unfold messages_old. destruct openingQuestion as [q|]; cbn [length Nat.eqb];
    rewrite ?andb_false_r; reflexivity.
Qed.

(** C1, as stated, fails on the older revision of the page: the run of
    the sample is not shown as opening question, answer, next question. *)
Lemma older_page_shows_question_before_answer :
  ~ answerBeforeQuestion (messages_old "" None)
      Scenario.opening [Scenario.answer].
Proof.
  unfold answerBeforeQuestion. rewrite older_page_puts_question_first.
  discriminate.
Qed.

(** C1, amended. On the current page a stored history that begins with
    its opening turn and continues with turns that are not opening turns
    is shown as the opening turn's system message alone, then, for every
    later turn, a candidate entry with the candidate's message followed
    by a system entry with the system message and feedback stored with
    it. *)
Theorem current_page_shows_answer_before_question
    (nowIso : string) (openingQuestion : option string)
    (first : Turn) (rest : list Turn) :
  isOpeningSession first = true ->
  Forall (fun t => isOpeningSession t = false) rest ->
  messages nowIso openingQuestion (first :: rest)
  = Message.mk (InterviewSession.id first) ai
               (InterviewSession.ai_message first)
               (InterviewSession.feedback first)
               (InterviewSession.created_at first)
    :: flat_map
         (fun t =>
            [Message.mk (InterviewSession.id t ++ "-user") user
                        (InterviewSession.user_message t) None
                        (InterviewSession.created_at t);
             Message.mk (InterviewSession.id t) ai
                        (InterviewSession.ai_message t)
                        (InterviewSession.feedback t)
                        (InterviewSession.created_at t)])
         rest.
Proof.
  intros Hfirst Hrest. unfold messages.
  rewrite openingMessages_nonempty. cbn [app flat_map].
  unfold sessionMessages at 1. rewrite Hfirst. cbn [app]. f_equal.
  induction Hrest as [|t l Ht _ IH]; [reflexivity|].
  cbn [flat_map]. unfold sessionMessages at 1. rewrite Ht, IH. reflexivity.
Qed.

Lemma current_page_shows_answer_before_question_witness :
  messages "" None [Scenario.opening; Scenario.answer]
  = [ Message.mk "turn-0" ai "Tell me about yourself." None
                 "2025-01-01T10:00:00Z";
      Message.mk "turn-1-user" user "I built a cache" None
                 "2025-01-01T10:05:00Z";
      Message.mk "turn-1" ai "How did you evict entries?"
                 (Some "Clear answer.") "2025-01-01T10:05:00Z" ].
Proof.
  apply (@current_page_shows_answer_before_question
           "" None Scenario.opening [Scenario.answer]).
  - reflexivity.
  - repeat constructor.
Defined.

(** C5, as stated, fails: the terminal turn of the example run is shown,
    its candidate message [SESSION_ENDED] included. *)
Lemma terminal_turn_is_shown :
  ~ terminalTurnHidden "" None [Scenario.opening; Scenario.answer]
      Scenario.terminal.
Proof.
  intros H. apply (H (userMessageOf Scenario.terminal)).
  - cbv. tauto.
  - right. reflexivity.
Qed.

(** Only an end response writes the summary. *)
Lemma step_keeps_summary getTime (e : Event) (w : World) :
  isEndResponded e = false ->
  summary (page (step getTime e w)) = summary (page w).
Proof.
  intros He. destruct e; try discriminate He; step_cases; reflexivity.
Qed.

Lemma run_keeps_summary getTime (es : list Event) (w : World) :
  forallb (fun e => negb (isEndResponded e)) es = true ->
  summary (page (run getTime es w)) = summary (page w).
Proof.
  revert w. induction es as [|e es IH]; intros w Hes; [reflexivity|].
  cbn [forallb] in Hes. apply andb_true_iff in Hes. destruct Hes as [He Hes].
  rewrite run_cons, (IH _ Hes). apply step_keeps_summary.
  apply negb_true_iff. exact He.
Qed.

(** C5, amended. The reconstruction treats a terminal turn like any
    other turn that is not the opening one: after the entries of the
    earlier turns (the system entry alone for an opening turn, the
    candidate entry and then the system entry for any other) come a
    candidate entry whose content is
    [SESSION_ENDED] and a system entry with the terminal turn's system
    message and feedback. Loading a history or a latest turn, terminal or
    not, does not bring up the summary view: from a fresh page the summary
    stays empty under any events that are not end responses. An end
    response with a non-empty summary, arriving for an end call in
    flight, stores that summary. *)
Theorem terminal_turn_rendered_like_an_answer
    (nowIso : string) (openingQuestion : option string)
    (earlier : list Turn) (terminal : Turn) :
  isEndedSession terminal = true ->
  messages nowIso openingQuestion (earlier ++ [terminal])
  = (flat_map
       (fun t =>
          if (InterviewSession.user_message t =? INTERVIEW_STARTED)%string
          then [Message.mk (InterviewSession.id t) ai
                           (InterviewSession.ai_message t)
                           (InterviewSession.feedback t)
                           (InterviewSession.created_at t)]
          else [Message.mk (InterviewSession.id t ++ "-user") user
                           (InterviewSession.user_message t) None
                           (InterviewSession.created_at t);
                Message.mk (InterviewSession.id t) ai
                           (InterviewSession.ai_message t)
                           (InterviewSession.feedback t)
                           (InterviewSession.created_at t)])
       earlier
     ++ [Message.mk (InterviewSession.id terminal ++ "-user") user
                    SESSION_ENDED None
                    (InterviewSession.created_at terminal);
         Message.mk (InterviewSession.id terminal) ai
                    (InterviewSession.ai_message terminal)
                    (InterviewSession.feedback terminal)
                    (InterviewSession.created_at terminal)])%list
  /\ (forall getTime (iid : string) (es : list Event),
        forallb (fun e => negb (isEndResponded e)) es = true ->
        summary (page (run getTime es (mount iid))) = None)
  /\ (forall getTime (w : World) (r : EndInterviewResponse.t),
        location (page w) = OnInterviewPage ->
        (0 < endsInFlight w)%nat ->
        truthyOpt (EndInterviewResponse.summary r) = true ->
        summary (page (step getTime (EndResponded (Some r)) w))
        = EndInterviewResponse.summary r).
Proof.
  intros Hend. split; [|split].
  - unfold messages. rewrite openingMessages_snoc. cbn [app].
    rewrite flat_map_app. cbn [flat_map]. unfold sessionMessages at 2.
    rewrite (ended_is_not_opening _ Hend). rewrite app_nil_r.
    unfold userMessageOf, aiMessageOf. unfold isEndedSession in Hend.
    apply String.eqb_eq in Hend. rewrite Hend.
    change sessionMessages
      with (fun t =>
              if (InterviewSession.user_message t =? INTERVIEW_STARTED)%string
              then [Message.mk (InterviewSession.id t) ai
                               (InterviewSession.ai_message t)
                               (InterviewSession.feedback t)
                               (InterviewSession.created_at t)]
              else [Message.mk (InterviewSession.id t ++ "-user") user
                               (InterviewSession.user_message t) None
                               (InterviewSession.created_at t);
                    Message.mk (InterviewSession.id t) ai
                               (InterviewSession.ai_message t)
                               (InterviewSession.feedback t)
                               (InterviewSession.created_at t)]).
    reflexivity.
  - intros getTime iid es Hes. rewrite (run_keeps_summary getTime es _ Hes).
    reflexivity.
  - intros getTime w r Hl Hn Hr. unfold step. rewrite Hl.
    destruct (endsInFlight w); [lia|].
    unfold endOnResponse. rewrite Hr. reflexivity.
Qed.

Lemma terminal_turn_rendered_like_an_answer_witness :
  messages "" None ([Scenario.opening; Scenario.answer] ++ [Scenario.terminal])
  = [ Message.mk "turn-0" ai "Tell me about yourself." None
                 "2025-01-01T10:00:00Z";
      Message.mk "turn-1-user" user "I built a cache" None
                 "2025-01-01T10:05:00Z";
      Message.mk "turn-1" ai "How did you evict entries?"
                 (Some "Clear answer.") "2025-01-01T10:05:00Z";
      Message.mk "turn-2-user" user "[SESSION_ENDED]" None
                 "2025-01-01T10:15:01Z";
      Message.mk "turn-2" ai "" (Some "Solid session.")
                 "2025-01-01T10:15:01Z" ]
  /\ summary
       (page (run Scenario.getTime
                  [LatestLoaded (Some Scenario.terminal); ResumeEffect;
                   StartSucceeded
                     (StartInterviewResponse.mk "interview-0" "run-0"
                        "Tell me about yourself." "Backend engineer" 60
                        None None "started");
                   SessionsLoaded
                     [Scenario.opening; Scenario.answer; Scenario.terminal];
                   TimerEffect (Scenario.T0 + 16 * Scenario.minute)]
                  (mount "interview-0"))) = None.
Proof.
  destruct (@terminal_turn_rendered_like_an_answer
              "" None [Scenario.opening; Scenario.answer] Scenario.terminal
              eq_refl) as (H1 & H2 & _).
  split; [exact H1|]. apply H2. reflexivity.
Defined.

(** ** Resume or start *)

(** C4, as stated, fails: with a latest turn that is not terminal and
    carries no run identifier the effect does not start a run and does
    not resume one either. *)
Lemma resolver_leaves_legacy_turn_alone :
  ~ resolverAsStated "interview-0" (Some Scenario.legacy).
Proof.
  intros [_ H]. destruct H as [run Hrun].
  - cbn. discriminate.
  - cbv in Hrun. discriminate.
Qed.

(** C4, amended. On entering an interview the resume effect sends a
    start request exactly when the latest-session query returned no turn
    or a turn whose candidate message is [SESSION_ENDED]. Otherwise, when
    the latest turn carries a non-empty run identifier, it resumes that
    run and sends nothing; when it carries none, the page is left as it
    is. *)
Theorem resolver_starts_or_resumes (iid : string) (latest : option Turn) :
  (startsNewRun (entering iid latest) <-> noTurnOrEnded latest)
  /\ (forall t, latest = Some t -> isEndedSession t = false ->
        truthyOpt (InterviewSession.session_run_id t) = true ->
        resumesRun (InterviewSession.session_run_id t) (entering iid latest))
  /\ (forall t, latest = Some t -> isEndedSession t = false ->
        truthyOpt (InterviewSession.session_run_id t) = false ->
        resumeEffect (entering iid latest) = (entering iid latest, [])).
Proof.
  split; [split|split].
  - unfold startsNewRun, resumeEffect, entering.
    destruct latest as [t|]; cbn; [|trivial].
    destruct (isEndedSession t); [trivial|].
    destruct (truthyOpt (InterviewSession.session_run_id t)); discriminate.
  - unfold startsNewRun, resumeEffect, entering.
    destruct latest as [t|]; cbn; [|reflexivity].
    intros ->. reflexivity.
  - intros t -> He Hrun. unfold resumesRun, resumeEffect, entering. cbn.
    rewrite He, Hrun. reflexivity.
  - intros t -> He Hrun. unfold resumeEffect, entering. cbn.
    rewrite He, Hrun. reflexivity.
Qed.

(** *** The page never starts over a latest turn without a run *)

Lemma forallb_snoc {A} (f : A -> bool) (l : list A) (x : A) :
  forallb f (l ++ [x]) = forallb f l && f x.
Proof.
  rewrite forallb_app. cbn. rewrite andb_true_r. reflexivity.
Qed.

Lemma resumeEffect_idle (w : World) :
  idle w -> resumeEffect (page w) = (page w, []).
Proof.
  intros (Hs & Hr & Hp & Hl & _). unfold resumeEffect.
  destruct Hl as [Hl | (t & Ht & Hstuck)].
  - rewrite Hl. reflexivity.
  - destruct (isLoadingLatest (page w)); [reflexivity|].
    rewrite Ht. unfold stuckTurn in Hstuck.
    apply andb_true_iff in Hstuck. destruct Hstuck as [He Hrun].
    apply negb_true_iff in He. apply negb_true_iff in Hrun.
    rewrite He, Hrun. reflexivity.
Qed.

Lemma step_idle getTime (e : Event) (w : World) :
  latestStaysStuck e = true -> idle w -> idle (step getTime e w).
Proof.
  intros He Hw. pose proof Hw as (Hs & Hr & Hp & Hl & Hq).
  unfold step. destruct (location (page w)); [|exact Hw].
  destruct e; cbn in He.
  - (* LatestLoaded *)
    rewrite Hs. cbn. destruct data as [t|]; [|discriminate].
    unfold idle; cbn. repeat split; auto. right. eauto.
  - unfold idle; cbn. repeat split; auto.
  - rewrite Hs. cbn. exact Hw.
  - rewrite Hp. exact Hw.
  - rewrite Hp. exact Hw.
  - (* SendSucceeded *)
    destruct (sendInFlight mutation w); [|exact Hw].
    unfold idle, sendOnSuccess, settleSend; cbn.
    destruct (sendCurrent (page w)) as [m|]; cbn;
      [destruct (m =? mutation)%nat; cbn|]; repeat split; auto.
  - destruct (sendInFlight mutation w); [|exact Hw].
    unfold idle, sendOnError, settleSend; cbn.
    destruct (sendCurrent (page w)) as [m|]; cbn;
      [destruct (m =? mutation)%nat; cbn|]; repeat split; auto.
  - (* EndResponded *)
    destruct (endsInFlight w); [exact Hw|].
    unfold idle, endOnResponse; cbn.
    destruct response as [r|]; [destruct (truthyOpt _)|]; cbn;
      repeat split; auto.
  - destruct (endsInFlight w); [exact Hw|].
    unfold idle; cbn. repeat split; auto.
  - (* ResumeEffect *)
    rewrite (resumeEffect_idle Hw). unfold after; cbn.
    rewrite app_nil_r. destruct w; exact Hw.
  - (* DurationEffect *)
    unfold idle, durationEffect; cbn.
    destruct (interview (page w)); cbn; repeat split; auto.
  - (* TimerEffect *)
    unfold timerEffect. rewrite Hs. cbn. rewrite app_nil_r, Nat.add_0_r.
    unfold idle; cbn. repeat split; auto.
  - (* Tick *)
    destruct (timer w) as [t|]; [|exact Hw].
    unfold idle, afterEnd, updateTimer, handleEndCall; cbn.
    destruct (numGe _ _); cbn; rewrite ?app_nil_r, ?forallb_snoc, ?Hq;
      repeat split; auto.
  - (* Typed *)
    destruct (inputEnabled (page w)); [|exact Hw].
    unfold idle; cbn. repeat split; auto.
  - (* SubmitForm *)
    rewrite Hs, andb_false_r. exact Hw.
  - (* ToggleCode *)
    destruct (negb (truthyOpt (summary (page w)))); [|exact Hw].
    unfold idle; cbn. repeat split; auto.
  - (* CodeSubmitted *)
    destruct (negb (truthyOpt (summary (page w))) && isCodeOpen (page w));
      [|exact Hw].
    unfold idle, afterSend, handleCodeSubmit, sendMutate; cbn.
    rewrite forallb_snoc, Hq. repeat split; auto.
  - (* EndClicked *)
    destruct (negb (truthyOpt (summary (page w)))); [|exact Hw].
    unfold idle, afterEnd, handleEndCall; cbn.
    rewrite forallb_snoc, Hq. repeat split; auto.
Qed.

Lemma run_idle getTime (es : list Event) (w : World) :
  forallb latestStaysStuck es = true -> idle w -> idle (run getTime es w).
Proof.
  revert w. induction es as [|e es IH]; intros w Hes Hw; [exact Hw|].
  cbn in Hes. apply andb_true_iff in Hes. destruct Hes as [He Hes].
  cbn. apply IH; [exact Hes|]. apply step_idle; assumption.
Qed.

Lemma mount_idle (iid : string) : idle (mount iid).
Proof. unfold idle; cbn. repeat split; auto. Qed.

(** C10. When every answer of the latest-session query is a turn that
    is not terminal and carries no run identifier, then after any
    sequence of page events the session is not started, the page holds no
    run identifier and no start request has been sent. *)
Theorem latest_turn_without_run_never_starts
    (getTime : string -> option Z) (iid : string) (es : list Event) :
  forallb latestStaysStuck es = true ->
  let w := run getTime es (mount iid) in
  started (page w) = false
  /\ sessionRunId (page w) = None
  /\ forall i, ~ In (StartInterview i) (requests w).
Proof.
  intros Hes w.
  destruct (run_idle getTime es Hes (mount_idle iid)) as (Hs & Hr & _ & _ & Hq).
  fold w in Hs, Hr, Hq. repeat split; auto.
  intros i Hin. rewrite forallb_forall in Hq.
  specialize (Hq _ Hin). discriminate.
Qed.

Lemma latest_turn_without_run_never_starts_witness :
  let w := run Scenario.getTime
               [LatestLoaded (Some Scenario.legacy); ResumeEffect;
                InterviewLoaded Scenario.interview60; DurationEffect;
                TimerEffect Scenario.T0; ToggleCode;
                CodeSubmitted "print(1)" "python"; EndClicked]
               (mount "interview-0") in
  started (page w) = false
  /\ sessionRunId (page w) = None
  /\ forall i, ~ In (StartInterview i) (requests w).
Proof.
  apply (@latest_turn_without_run_never_starts Scenario.getTime "interview-0").
  reflexivity.
Defined.

(** ** Duration timer *)

Lemma whole_seconds_reach (elapsedMs limit : Z) :
  (limit <=? elapsedMs / 1000) = (limit * 1000 <=? elapsedMs).
Proof.
  pose proof (Z.div_mod elapsedMs 1000 ltac:(lia)) as Hdm.
  pose proof (Z.mod_pos_bound elapsedMs 1000 ltac:(lia)) as Hb.
  destruct (Z.leb_spec limit (elapsedMs / 1000));
    destruct (Z.leb_spec (limit * 1000) elapsedMs); try reflexivity; lia.
Qed.

(** With a parsed start time [T], the callback asks to end the run
    exactly from [T] plus the closed-over duration on. *)
Lemma timer_fires_iff (t : Timer) (T now : Z) (p : Page) :
  startTime t = Some T ->
  (firesAt t now p <-> T + timerDuration t * 60000 <= now)
  /\ (now < T + timerDuration t * 60000 -> snd (updateTimer t now p) = []).
Proof.
  intros HT. unfold firesAt, updateTimer, secondsElapsed. rewrite HT.
  cbn [numGe]. rewrite whole_seconds_reach.
  destruct (Z.leb_spec (timerDuration t * 60 * 1000) (now - T)); cbn.
  - split; [split; [lia | reflexivity] | lia].
  - split; [split; [discriminate | lia] | reflexivity].
Qed.

(** The start time is the opening turn's timestamp whenever the loaded
    history has one; neither the clock nor the elapsed counter enters. *)
Lemma timer_starts_at_opening_turn getTime (now : Z) (p : Page) (s : Turn) :
  find isOpeningSession (sessions p) = Some s ->
  timerStartTime getTime now p = getTime (InterviewSession.created_at s).
Proof.
  intros H. unfold timerStartTime. rewrite H. reflexivity.
Qed.

(** Ticks one second apart from [t0] on reach a tick that fires. *)
Lemma timer_eventually_fires (t : Timer) (T t0 : Z) (p : Page) :
  startTime t = Some T ->
  exists k : nat, firesAt t (t0 + 1000 * Z.of_nat k) p.
Proof.
  intros HT.
  exists (Z.to_nat (T + timerDuration t * 60000 - t0)).
  apply (timer_fires_iff t (t0 + 1000 * Z.of_nat (Z.to_nat (T + timerDuration t * 60000 - t0))) p HT).
  lia.
Qed.

(** With the interview details applied to the page state and the run's
    history loaded, the timer effect asks to end the run exactly from the
    opening turn's timestamp plus the configured duration on. *)
Lemma guard_exact_when_details_loaded getTime (now T : Z) (p : Page)
    (s : Turn) (i : Interview.t) :
  started p = true ->
  truthyOpt (sessionRunId p) = true ->
  find isOpeningSession (sessions p) = Some s ->
  getTime (InterviewSession.created_at s) = Some T ->
  interview p = Some i ->
  snd (timerEffect getTime now (durationEffect p))
  = if T + Interview.duration_minutes i * 60000 <=? now
    then [EndInterview (interviewId p) (sessionRunId p)]
    else [].
Proof.
  intros Hs Hr Hfind HT Hi. unfold durationEffect. rewrite Hi.
  unfold timerEffect.
  cbn [started sessionRunId setDurationMinutes durationMinutes].
  rewrite Hs, Hr. cbn [negb orb].
  unfold timerStartTime. cbn [sessions setDurationMinutes].
  rewrite Hfind, HT.
  unfold updateTimer, secondsElapsed, handleEndCall, orUndefined.
  cbn [startTime timerDuration timerRunId numGe]. rewrite Hr.
  rewrite whole_seconds_reach.
  destruct (Z.leb_spec (Interview.duration_minutes i * 60 * 1000) (now - T));
    destruct (Z.leb_spec (T + Interview.duration_minutes i * 60000) now);
    try lia; reflexivity.
Qed.

(** Once the interview details are in the page state, the guard of the
    example run stays quiet at minute 31 of 60. *)
Lemma guard_waits_when_details_loaded_first :
  requests (run Scenario.getTime Scenario.resumedAfterDetails
                (mount "interview-0")) = [].
Proof. vm_compute. reflexivity. Qed.

(** C2, at the failing input. The interview of the example store is
    configured for 60 minutes and its run opened at [T0]. The page resumes
    the run 31 minutes later and the run's history arrives while the
    interview details are still loading, so [durationMinutes] still holds
    its initial 30: the timer effect's first update asks to end the run,
    29 minutes before [T0 + 60 min]. *)
Theorem guard_ends_run_before_configured_duration :
  let w := run Scenario.getTime Scenario.resumedBeforeDetails
               (mount "interview-0") in
  Backend.findInterview "interview-0" Scenario.store
  = Some Scenario.interview60
  /\ find isOpeningSession (sessions (page w)) = Some Scenario.opening
  /\ Scenario.getTime (InterviewSession.created_at Scenario.opening)
     = Some Scenario.T0
  /\ interview (page w) = None
  /\ requests w = [EndInterview "interview-0" (Some "run-0")]
  /\ Scenario.T0 + 31 * Scenario.minute
     < Scenario.T0
       + Interview.duration_minutes Scenario.interview60 * Scenario.minute.
Proof. vm_compute. repeat split; reflexivity. Qed.

(** ** Sending an answer *)

Lemma step_singleFlight getTime (e : Event) (w : World) :
  isCodeSubmitted e = false -> singleFlight w -> singleFlight (step getTime e w).
Proof.
  intros He Hw. unfold singleFlight in *. unfold step.
  destruct (location (page w)); [|exact Hw].
  destruct e; cbn in He; try discriminate.
  - destruct (negb (started (page w))); exact Hw.
  - exact Hw.
  - destruct (started (page w) && truthyOpt (sessionRunId (page w))); exact Hw.
  - destruct (startPending (page w)); exact Hw.
  - destruct (startPending (page w)); exact Hw.
  - (* SendSucceeded *)
    unfold sendInFlight. rewrite Hw.
    destruct (sendCurrent (page w)) as [m|] eqn:Hc; cbn; [|rewrite Hc; exact Hw].
    rewrite orb_false_r. destruct (m =? mutation)%nat eqn:Hm; cbn.
    + unfold sendOnSuccess, settleSend; cbn. rewrite Hc, Hm, Hw. cbn.
      rewrite Hm. reflexivity.
    + rewrite Hc. exact Hw.
  - (* SendFailed *)
    unfold sendInFlight. rewrite Hw.
    destruct (sendCurrent (page w)) as [m|] eqn:Hc; cbn; [|rewrite Hc; exact Hw].
    rewrite orb_false_r. destruct (m =? mutation)%nat eqn:Hm; cbn.
    + unfold sendOnError, settleSend; cbn. rewrite Hc, Hm, Hw. cbn.
      rewrite Hm. reflexivity.
    + rewrite Hc. exact Hw.
  - destruct (endsInFlight w); [exact Hw|]. cbn.
    unfold endOnResponse.
    destruct response as [r|]; [destruct (truthyOpt _)|]; exact Hw.
  - destruct (endsInFlight w); exact Hw.
  - (* ResumeEffect *)
    unfold after, resumeEffect, startMutate; cbn.
    destruct (isLoadingLatest (page w)); [exact Hw|].
    destruct (latestSession (page w)) as [t|];
      [destruct (isEndedSession t);
       [|destruct (truthyOpt (InterviewSession.session_run_id t))]|];
      try destruct (negb (started (page w)) && negb (startPending (page w)));
      exact Hw.
  - unfold durationEffect; cbn. destruct (interview (page w)); exact Hw.
  - (* TimerEffect *)
    unfold timerEffect, updateTimer, handleEndCall.
    destruct (negb (started (page w)) || negb (truthyOpt (sessionRunId (page w))));
      [exact Hw|].
    destruct (numGe _ _); exact Hw.
  - destruct (timer w) as [t|]; [|exact Hw].
    unfold afterEnd, updateTimer, handleEndCall; cbn.
    destruct (numGe _ _); exact Hw.
  - destruct (inputEnabled (page w)); exact Hw.
  - (* SubmitForm *)
    destruct (chatShown (page w) && started (page w)); [|exact Hw].
    unfold afterSend, handleSendMessage, sendPending.
    destruct (sendCurrent (page w)) as [m|] eqn:Hc.
    + rewrite orb_true_r. cbn. rewrite Hc. exact Hw.
    + rewrite orb_false_r.
      destruct (negb (truthy (trim (userMessage (page w))))); cbn.
      * rewrite Hc. exact Hw.
      * rewrite Hw. reflexivity.
  - destruct (negb (truthyOpt (summary (page w)))); exact Hw.
  - destruct (negb (truthyOpt (summary (page w)))); exact Hw.
Qed.

(** As long as answers only come from the chat form, at most one
    [sendMessage] call is awaiting its response. *)
Lemma form_path_single_flight getTime (iid : string) (es : list Event) :
  forallb (fun e => negb (isCodeSubmitted e)) es = true ->
  (length (sendsInFlight (run getTime es (mount iid))) <= 1)%nat.
Proof.
  intros Hes.
  assert (H : singleFlight (run getTime es (mount iid))).
  { assert (H0 : singleFlight (mount iid)) by reflexivity.
    revert H0 Hes. generalize (mount iid).
    induction es as [|e es IH]; intros w Hw Hes; [exact Hw|].
    cbn in Hes. apply andb_true_iff in Hes. destruct Hes as [He Hes].
    cbn. apply IH; [|exact Hes].
    apply step_singleFlight; [|exact Hw].
    apply negb_true_iff. exact He. }
  unfold singleFlight in H. rewrite H.
  destruct (sendCurrent _); cbn; lia.
Qed.

(** C8, at the failing input. The chat form refuses a second submit
    while an answer is pending, the code editor's submit handler does
    not: after an answer was sent from the form, a code submission sends
    a second [sendMessage] for the same run while the first one is still
    awaiting its response. *)
Theorem code_submission_overlaps_pending_answer :
  let w := run Scenario.getTime Scenario.answerThenCode (mount "interview-0") in
  sendsInFlight w = [0; 1]%nat
  /\ requests w
     = [SendMessage "interview-0" "I used LRU" (Some "run-0");
        SendMessage "interview-0" (formattedMessage "print(1)" "python")
                    (Some "run-0")]
  /\ snd (handleSendMessage
            (page (run Scenario.getTime
                       [LatestLoaded (Some Scenario.answer); ResumeEffect;
                        Typed "I used LRU"; SubmitForm]
                       (mount "interview-0")))) = [].
Proof. vm_compute. repeat split; reflexivity. Qed.

(** ** Ending a run *)

Lemma find_skips_prefix {A} (f : A -> bool) (l l' : list A) :
  existsb f l = false -> find f (l ++ l') = find f l'.
Proof.
  induction l as [|a l IH]; cbn; [reflexivity|].
  intros H. apply orb_false_iff in H. destruct H as [Ha Hl].
  rewrite Ha. auto.
Qed.

Lemma belongs_refl (run : string) (t : Turn) :
  InterviewSession.session_run_id t = Some run -> Backend.belongs run t = true.
Proof.
  intros H. unfold Backend.belongs. rewrite H. apply String.eqb_refl.
Qed.

Lemma runState_open (run : string) (s : Backend.Store) (st : Backend.RunState) :
  Backend.runState run s = Some st -> st <> Backend.ENDED ->
  Backend.hasTerminal run s = false /\ Backend.listByRun run s <> [].
Proof.
  unfold Backend.runState. intros H Hst.
  destruct (Backend.listByRun run s) eqn:Hl; [discriminate|].
  split; [|discriminate].
  destruct (Backend.hasTerminal run s); [|reflexivity].
  injection H as <-. contradiction.
Qed.

(** Ending a run that is not ended leaves it ended, with the summary
    stored in its terminal turn. *)
Lemma endRun_marks_ended (iid run now : string) summarize
    (s s1 : Backend.Store) (r1 : EndInterviewResponse.t) (st : Backend.RunState) :
  Backend.runState run s = Some st -> st <> Backend.ENDED ->
  Backend.endRun iid run summarize now s = (s1, inr r1) ->
  Backend.runState run s1 = Some Backend.ENDED
  /\ Backend.existingSummary run s1 = EndInterviewResponse.summary r1
  /\ r1 = EndInterviewResponse.mk "ended" iid (Some run)
            (EndInterviewResponse.summary r1).
Proof.
  intros Hst Hne. destruct (@runState_open _ _ _ Hst Hne) as [Hterm Hnonempty].
  unfold Backend.endRun. rewrite Hst.
  assert (Hbody :
    (let summary := summarize (Backend.listByRun run s) in
     match Backend.append iid run "" SESSION_ENDED summary now s with
     | inl e => (s, inl e)
     | inr (_, s2) =>
         (s2, inr (EndInterviewResponse.mk "ended" iid (Some run) summary))
     end) = (s1, inr r1) ->
    Backend.runState run s1 = Some Backend.ENDED
    /\ Backend.existingSummary run s1 = EndInterviewResponse.summary r1
    /\ r1 = EndInterviewResponse.mk "ended" iid (Some run)
              (EndInterviewResponse.summary r1)).
  { cbv zeta. unfold Backend.append. rewrite Hterm.
    intros H. injection H as <- <-. cbn [EndInterviewResponse.summary].
    set (t := InterviewSession.mk _ _ _ _ _ _ _).
    assert (Hl : Backend.listByRun run
                   (Backend.mk (Backend.interviews s) (Backend.turns s ++ [t])
                               (Backend.runsCreated s) (Backend.inFlight s))
                 = (Backend.listByRun run s ++ [t])%list).
    { unfold Backend.listByRun. cbn [Backend.turns]. rewrite filter_app.
      cbn [filter]. rewrite (@belongs_refl run t eq_refl). reflexivity. }
    repeat split.
    - unfold Backend.runState, Backend.hasTerminal. rewrite Hl.
      rewrite existsb_app. cbn. rewrite orb_true_r.
      destruct (Backend.listByRun run s); reflexivity.
    - unfold Backend.existingSummary. rewrite Hl.
      rewrite find_skips_prefix by exact Hterm. reflexivity. }
  destruct st; try exact Hbody. contradiction.
Qed.

(** C6. When an end call for a run succeeds, a further end call for the
    same run, whatever the collaborator answers then, returns the same
    response with the same summary and leaves the store as the first call
    left it: no second terminal turn is appended. *)
Theorem ending_twice_returns_same_summary
    (c1 c2 : Collaborator) (now1 now2 iid run : string)
    (s s1 : Backend.Store) (r1 : EndInterviewResponse.t) :
  serve c1 now1 (EndInterview iid (Some run)) s = (s1, EndOk r1) ->
  serve c2 now2 (EndInterview iid (Some run)) s1 = (s1, EndOk r1).
Proof.
  unfold serve, Backend.endInterview, Backend.resolveRun. intros H.
  destruct (Backend.endRun iid run (generateSummary c1) now1 s)
    as [s' [e|r]] eqn:Hend; [discriminate|].
  injection H as -> ->.
  assert (Hended : Backend.runState run s1 = Some Backend.ENDED
                   /\ r1 = EndInterviewResponse.mk "ended" iid (Some run)
                             (Backend.existingSummary run s1)).
  { destruct (Backend.runState run s) as [st|] eqn:Hst.
    - destruct st.
      + destruct (@endRun_marks_ended _ _ _ _ _ _ _ _ Hst ltac:(discriminate) Hend)
          as (H1 & H2 & H3). rewrite H2. auto.
      + destruct (@endRun_marks_ended _ _ _ _ _ _ _ _ Hst ltac:(discriminate) Hend)
          as (H1 & H2 & H3). rewrite H2. auto.
      + unfold Backend.endRun in Hend. rewrite Hst in Hend.
        injection Hend as <- <-. auto.
    - unfold Backend.endRun in Hend. rewrite Hst in Hend. discriminate. }
  destruct Hended as [Hst1 Hr1].
  unfold Backend.endRun. rewrite Hst1, <- Hr1. reflexivity.
Qed.

Lemma ending_twice_returns_same_summary_witness :
  serve Scenario.failing "2025-01-01T10:16:00Z"
        (EndInterview "interview-0" (Some "run-0"))
        (fst (serve Scenario.collaborator "2025-01-01T10:15:01Z"
                    (EndInterview "interview-0" (Some "run-0")) Scenario.store))
  = serve Scenario.collaborator "2025-01-01T10:15:01Z"
          (EndInterview "interview-0" (Some "run-0")) Scenario.store.
Proof.
  apply (@ending_twice_returns_same_summary
           Scenario.collaborator Scenario.failing
           "2025-01-01T10:15:01Z" "2025-01-01T10:16:00Z"
           "interview-0" "run-0" Scenario.store).
  reflexivity.
Defined.

(** ** Interview duration *)

Lemma toNumber_exact (z : Z) :
  Z.abs z < 9007199254740992 -> StartInterviewForm.toNumber z
                                = StartInterviewForm.Finite z.
Proof.
  intros H. unfold StartInterviewForm.toNumber.
  destruct (Z.ltb_spec (Z.abs z) 9007199254740992); [reflexivity|lia].
Qed.

(** Past [2^53] the field rounds: the digits of [2^53 + 1] are read as
    [2^53], those of [2^53 + 3] as [2^53 + 4]. *)
Lemma parseInt_rounds_to_a_double :
  StartInterviewForm.parseInt "9007199254740993"
  = StartInterviewForm.Finite 9007199254740992
  /\ StartInterviewForm.parseInt "9007199254740995"
     = StartInterviewForm.Finite 9007199254740996.
Proof. vm_compute. split; reflexivity. Qed.

(** Reading the digits a number was printed with gives the number back. *)
Lemma digits_onto (l : Decimal.uint) (acc : positive) :
  StartInterviewForm.digits (Some (Zpos acc)) (NilEmpty.string_of_uint l)
  = Some (Zpos (Pos.of_uint_acc l acc)).
Proof.
  revert acc.
  induction l; intros acc;
    cbn [NilEmpty.string_of_uint StartInterviewForm.digits Pos.of_uint_acc];
    [reflexivity| ..].
  all: replace (StartInterviewForm.isDigit _) with true by reflexivity.
  all: cbv iota; rewrite <- IHl; do 2 f_equal.
  all: match goal with
       | |- context [(nat_of_ascii ?c - 48)%nat] =>
           let k := eval vm_compute in (nat_of_ascii c - 48)%nat in
           change (nat_of_ascii c - 48)%nat with k
       end; lia.
Qed.

Lemma digits_from_zero (d : Decimal.uint) :
  StartInterviewForm.digits (Some 0) (NilEmpty.string_of_uint d)
  = Some (Z.of_N (Pos.of_uint d)).
Proof.
  induction d;
    cbn [NilEmpty.string_of_uint StartInterviewForm.digits Pos.of_uint];
    [reflexivity| ..].
  all: replace (StartInterviewForm.isDigit _) with true by reflexivity.
  all: cbv iota.
  1: exact IHd.
  all: match goal with
       | |- context [(nat_of_ascii ?c - 48)%nat] =>
           let k := eval vm_compute in (0 * 10 + Z.of_nat (nat_of_ascii c - 48)) in
           change (0 * 10 + Z.of_nat (nat_of_ascii c - 48)) with k
       end; apply digits_onto.
Qed.

Lemma digits_of_decimal (d : Decimal.uint) :
  StartInterviewForm.digits None (NilZero.string_of_uint d)
  = Some (Z.of_N (Pos.of_uint d)).
Proof.
  destruct d; [reflexivity| ..];
    cbn [NilZero.string_of_uint NilEmpty.string_of_uint StartInterviewForm.digits
         Pos.of_uint];
    (replace (StartInterviewForm.isDigit _) with true by reflexivity);
    cbv iota.
  1: apply digits_from_zero.
  all: match goal with
       | |- context [(nat_of_ascii ?c - 48)%nat] =>
           let k := eval vm_compute in (0 * 10 + Z.of_nat (nat_of_ascii c - 48)) in
           change (0 * 10 + Z.of_nat (nat_of_ascii c - 48)) with k
       end; apply digits_onto.
Qed.

Lemma decimal_starts_with_digit (d : Decimal.uint) :
  exists c r, NilZero.string_of_uint d = String c r
              /\ StartInterviewForm.isDigit c = true.
Proof.
  destruct d; cbn; eexists; eexists; split; reflexivity.
Qed.

Lemma parseInt_unsigned (s : string) (c : ascii) (r : string) :
  s = String c r -> StartInterviewForm.isDigit c = true ->
  StartInterviewForm.parseInt s
  = match StartInterviewForm.digits None s with
    | Some v => StartInterviewForm.toNumber (1 * v)
    | None => StartInterviewForm.NaN
    end.
Proof.
  intros -> Hc. unfold StartInterviewForm.parseInt.
  assert (Hs : isSpace c = false).
  { revert Hc. unfold StartInterviewForm.isDigit, isSpace.
    generalize (nat_of_ascii c). intros n H.
    apply andb_true_iff in H. destruct H as [H1 H2].
    apply Nat.leb_le in H1, H2.
    destruct (Nat.eqb_spec n 32); [lia|].
    destruct (Nat.eqb_spec n 160); [lia|].
    destruct (Nat.leb_spec 9 n); destruct (Nat.leb_spec n 13); try reflexivity; lia. }
  cbn [trimStart]. rewrite Hs.
  destruct c as [[] [] [] [] [] [] [] []]; try reflexivity; discriminate Hc.
Qed.

(** [parseInt] of a printed integer is the number value of that
    integer. *)
Lemma parseInt_of_toStringZ (z : Z) :
  StartInterviewForm.parseInt (toStringZ z) = StartInterviewForm.toNumber z.
Proof.
  unfold toStringZ. destruct z as [|p|p].
  - reflexivity.
  - cbn [Z.to_int NilZero.string_of_int].
    destruct (decimal_starts_with_digit (Pos.to_uint p)) as (c & r & Hs & Hc).
    rewrite (@parseInt_unsigned _ _ _ Hs Hc), digits_of_decimal.
    rewrite DecimalPos.Unsigned.of_to. rewrite Z.mul_1_l. reflexivity.
  - cbn [Z.to_int NilZero.string_of_int].
    unfold StartInterviewForm.parseInt.
    change (trimStart (String "-" (NilZero.string_of_uint (Pos.to_uint p))))
      with (String "-" (NilZero.string_of_uint (Pos.to_uint p))).
    cbv iota. rewrite digits_of_decimal, DecimalPos.Unsigned.of_to.
    reflexivity.
Qed.






(** ** A failed answer *)

Lemma not_in_flight_filter (run : string) (l : list string) :
  existsb (String.eqb run) l = false ->
  filter (fun r => negb (r =? run)%string) l = l.
Proof.
  induction l as [|a l IH]; cbn; [reflexivity|].
  intros H. apply orb_false_iff in H. destruct H as [Ha Hl].
  rewrite String.eqb_sym, Ha. cbn. rewrite IH by exact Hl. reflexivity.
Qed.

Lemma leaveFlight_after_begin (run : string) (s : Backend.Store) :
  Backend.isInFlight run s = false ->
  Backend.leaveFlight run
    (Backend.setInFlight (Backend.inFlight s ++ [run]) s) = s.
Proof.
  unfold Backend.isInFlight, Backend.leaveFlight, Backend.setInFlight.
  destruct s as [ivs ts n fl]; cbn. intros H. f_equal.
  rewrite filter_app. cbn. rewrite String.eqb_refl. cbn.
  rewrite app_nil_r. apply not_in_flight_filter. exact H.
Qed.

Lemma beginSubmit_accepts (run : string) (s s1 : Backend.Store) :
  Backend.beginSubmit run s = inr s1 ->
  Backend.runState run s = Some Backend.AWAITING_CANDIDATE
  /\ Backend.isInFlight run s = false
  /\ Backend.hasTerminal run s = false
  /\ s1 = Backend.setInFlight (Backend.inFlight s ++ [run]) s.
Proof.
  unfold Backend.beginSubmit.
  destruct (Backend.runState run s) as [[| |]|] eqn:Hst; try discriminate.
  intros H. injection H as <-. repeat split.
  - unfold Backend.runState in Hst.
    destruct (Backend.listByRun run s); [discriminate|].
    destruct (Backend.hasTerminal run s); [discriminate|].
    destruct (Backend.isInFlight run s); [discriminate|reflexivity].
  - apply (@runState_open run s Backend.AWAITING_CANDIDATE Hst).
    discriminate.
Qed.

(** On the modelled store a run accepts one answer at a time: while an
    accepted answer has not produced its turn, a further one is out of
    turn. *)
Lemma second_begin_is_out_of_turn (run : string) (s s1 : Backend.Store) :
  Backend.beginSubmit run s = inr s1 ->
  Backend.beginSubmit run s1 = inl Backend.OutOfTurnError.
Proof.
  intros Hb. destruct (beginSubmit_accepts _ _ Hb) as (Hst & _ & Hterm & ->).
  unfold Backend.beginSubmit, Backend.runState in *.
  replace (Backend.listByRun run
             (Backend.setInFlight (Backend.inFlight s ++ [run]) s))
    with (Backend.listByRun run s) by reflexivity.
  replace (Backend.hasTerminal run
             (Backend.setInFlight (Backend.inFlight s ++ [run]) s))
    with (Backend.hasTerminal run s) by reflexivity.
  destruct (Backend.listByRun run s); [discriminate|].
  rewrite Hterm. unfold Backend.isInFlight, Backend.setInFlight.
  cbn [Backend.inFlight]. rewrite existsb_app. cbn.
  rewrite String.eqb_refl, orb_true_r. reflexivity.
Qed.

(** A rejected or failed [submitAnswer] leaves the store as it was. *)
Lemma submitAnswer_failure_keeps_store (iid run text now : string) generate
    (s s' : Backend.Store) (e : Backend.Error) :
  Backend.submitAnswer iid run text generate now s = (s', inl e) -> s' = s.
Proof.
  unfold Backend.submitAnswer.
  destruct (Backend.beginSubmit run s) as [e0|s1] eqn:Hb.
  - intros H. injection H as <- _. reflexivity.
  - destruct (beginSubmit_accepts _ _ Hb) as (_ & Hfl & _ & ->).
    destruct (generate _ text) as [[q fb]|].
    + destruct (Backend.append iid run q text fb now _) as [e1|[t s2]].
      * intros H. injection H as <- _. apply leaveFlight_after_begin, Hfl.
      * discriminate.
    + intros H. injection H as <- _. apply leaveFlight_after_begin, Hfl.
Qed.

(** An accepted [submitAnswer] appends one turn pairing the candidate's
    text with the new question. *)
Lemma submitAnswer_success_appends (iid run text now : string) generate
    (s s' : Backend.Store) (data : SendMessageResponse.t) :
  Backend.submitAnswer iid run text generate now s = (s', inr data) ->
  exists t, Backend.turns s' = (Backend.turns s ++ [t])%list
            /\ InterviewSession.user_message t = text
            /\ InterviewSession.ai_message t = SendMessageResponse.ai_message data
            /\ InterviewSession.session_run_id t = Some run.
Proof.
  unfold Backend.submitAnswer.
  destruct (Backend.beginSubmit run s) as [e0|s1] eqn:Hb; [discriminate|].
  destruct (beginSubmit_accepts _ _ Hb) as (_ & _ & Hterm & ->).
  destruct (generate _ text) as [[q fb]|]; [|discriminate].
  unfold Backend.append.
  replace (Backend.hasTerminal run
             (Backend.setInFlight (Backend.inFlight s ++ [run]) s))
    with (Backend.hasTerminal run s) by reflexivity.
  rewrite Hterm. intros H. injection H as <- <-.
  eexists. cbn. repeat split.
Qed.

Lemma skipn_own_length {A} (l l' : list A) :
  skipn (length l) (l ++ l') = l'.
Proof. induction l; cbn; auto. Qed.

Lemma in_flight_last (m : nat) (l : list nat) :
  existsb (fun x => (x =? m)%nat) (l ++ [m]) = true.
Proof.
  rewrite existsb_app. cbn. rewrite Nat.eqb_refl. apply orb_true_r.
Qed.

(** What a submit of the chat form does when it sends a request. *)
Lemma submit_sends getTime (w : World) (r : Request) (rs : list Request) :
  skipn (length (requests w)) (requests (step getTime SubmitForm w)) = r :: rs ->
  location (page w) = OnInterviewPage
  /\ sendPending (page w) = false
  /\ truthy (trim (userMessage (page w))) = true
  /\ step getTime SubmitForm w
     = afterSend (sendMutate (trim (userMessage (page w))) (page w)) w
  /\ r = SendMessage (interviewId (page w)) (trim (userMessage (page w)))
                     (orUndefined (sessionRunId (page w)))
  /\ rs = [].
Proof.
  unfold step.
  destruct (location (page w)) eqn:Hloc;
    [|rewrite skipn_all; discriminate].
  destruct (chatShown (page w) && started (page w));
    [|rewrite skipn_all; discriminate].
  unfold handleSendMessage.
  destruct (truthy (trim (userMessage (page w)))) eqn:Ht; cbn [negb orb];
    [|unfold afterSend; cbn; rewrite app_nil_r, skipn_all; discriminate].
  destruct (sendPending (page w)) eqn:Hp;
    [unfold afterSend; cbn; rewrite app_nil_r, skipn_all; discriminate|].
  unfold afterSend at 1. cbn [requests fst snd sendMutate].
  rewrite skipn_own_length. intros H. injection H as <- <-.
  repeat split.
Qed.

(** Whichever handler sent it, a failed [sendMessage] call writes
    neither the draft nor the loaded history nor the run the page holds. *)
Lemma failed_send_writes_nothing getTime (m : nat) (w : World) :
  let w' := step getTime (SendFailed m) w in
  userMessage (page w') = userMessage (page w)
  /\ sessions (page w') = sessions (page w)
  /\ sessionRunId (page w') = sessionRunId (page w)
  /\ started (page w') = started (page w).
Proof.
  unfold step. destruct (location (page w)); [|repeat split].
  destruct (sendInFlight m w); [|repeat split].
  unfold sendOnError, settleSend. cbn.
  destruct (sendCurrent (page w)) as [c|]; [|repeat split].
  destruct (c =? m)%nat; repeat split.
Qed.

Lemma retry_sends_same_request (p : Page) (n : nat) :
  sendCurrent p = None ->
  snd (handleSendMessage (setSend None n p)) = snd (handleSendMessage p).
Proof.
  intros H. unfold handleSendMessage, sendPending, sendMutate, setSend.
  cbn [sendCurrent userMessage interviewId sessionRunId sendCount].
  rewrite H. destruct (negb _ || false); reflexivity.
Qed.

(** On the chat form a failed answer can be sent again: when the
    candidate submits the form and the call fails, the draft is still in
    the input, the store is exactly as before (no turn appended, the run
    in the state it was in), the loaded history is untouched and no
    answer is pending, so that submitting again sends the same request.
    When the call succeeds the draft is cleared and one turn pairing the
    trimmed answer with the new question has been appended. *)
Lemma chat_form_failed_answer_keeps_draft
    (getTime : string -> option Z) (c : Collaborator) (now : string)
    (w w' : World) (s s' : Backend.Store) (resp : Response) :
  sendRound getTime c now w s = (w', s', Some resp) ->
  match resp with
  | SendOk data =>
      userMessage (page w') = ""
      /\ exists t, Backend.turns s' = (Backend.turns s ++ [t])%list
           /\ InterviewSession.user_message t = trim (userMessage (page w))
           /\ InterviewSession.ai_message t
              = SendMessageResponse.ai_message data
  | _ =>
      userMessage (page w') = userMessage (page w)
      /\ s' = s
      /\ (forall run, Backend.runState run s' = Backend.runState run s)
      /\ sessions (page w') = sessions (page w)
      /\ sendPending (page w') = false
      /\ snd (handleSendMessage (page w')) = snd (handleSendMessage (page w))
  end.
Proof.
  unfold sendRound.
  destruct (skipn (length (requests w))
                  (requests (step getTime SubmitForm w))) as [|r rs] eqn:Hreq;
    [discriminate|].
  destruct (submit_sends _ _ Hreq) as (Hloc & Hpend & Hdraft & Hstep & -> & ->).
  rewrite Hstep.
  set (p := page w) in *.
  set (m := sendCount p).
  set (w1 := afterSend (sendMutate (trim (userMessage p)) p) w).
  assert (Hloc1 : location (page w1) = OnInterviewPage) by exact Hloc.
  assert (Hfl : sendInFlight m w1 = true).
  { unfold sendInFlight, w1, afterSend. cbn. apply in_flight_last. }
  assert (Hfail : forall resp0 : Response,
             (match resp0 with SendOk _ => False | _ => True end) ->
             forall s0, s0 = s ->
             (step getTime (SendFailed m) w1, s0, Some resp0) = (w', s', Some resp) ->
             match resp with
             | SendOk _ => False
             | _ =>
                 userMessage (page w') = userMessage p
                 /\ s' = s
                 /\ (forall run, Backend.runState run s' = Backend.runState run s)
                 /\ sessions (page w') = sessions p
                 /\ sendPending (page w') = false
                 /\ snd (handleSendMessage (page w')) = snd (handleSendMessage p)
             end).
  { intros resp0 Hresp0 s0 -> H. injection H as <- <- <-.
    unfold step. rewrite Hloc1, Hfl.
    assert (Hpage : page (removeSend m (withPage (sendOnError m (page w1)) w1))
                    = setSend None (S (sendCount p)) p).
    { cbn. unfold sendOnError, settleSend. cbn. fold m.
      rewrite Nat.eqb_refl. reflexivity. }
    rewrite Hpage.
    assert (Hnone : sendCurrent p = None).
    { unfold sendPending in Hpend. destruct (sendCurrent p);
        [discriminate|reflexivity]. }
    destruct resp0; try contradiction;
      (split; [reflexivity|]; split; [reflexivity|]; split; [reflexivity|];
       split; [reflexivity|]; split; [reflexivity|];
       apply retry_sends_same_request, Hnone). }
  unfold serve.
  destruct (Backend.resolveRun (interviewId p) (orUndefined (sessionRunId p)) s)
    as [run|].
  - destruct (Backend.submitAnswer (interviewId p) run (trim (userMessage p))
                (generateNext c) now s) as [s2 [e|data]] eqn:Hsub.
    + intros H.
      pose proof (Hfail (Failed e) I s2
                    (submitAnswer_failure_keeps_store _ _ _ _ _ _ Hsub) H) as HF.
      destruct resp; try exact HF. contradiction.
    + intros H. injection H as <- <- <-.
      split.
      * unfold step. rewrite Hloc1, Hfl. cbn.
        unfold sendOnSuccess, settleSend. cbn. fold m.
        rewrite Nat.eqb_refl. reflexivity.
      * destruct (submitAnswer_success_appends _ _ _ _ _ _ Hsub)
          as (t & Ht & Hu & Ha & _). eauto.
  - intros H.
    pose proof (Hfail (Failed Backend.NotFoundError) I s eq_refl H) as HF.
    destruct resp; try exact HF. contradiction.
Qed.

(** Whatever code the editor holds, "Run & Submit" sends it and leaves
    no editor behind, before any response has arrived. *)
Lemma run_and_submit_closes_the_editor getTime (d : Desk)
    (st : CodeEditor.State) :
  editor d = Some st ->
  editorRendered (page (world d)) = true ->
  let d' := deskStep getTime RunAndSubmit d in
  editor d' = None
  /\ requests (world d')
     = (requests (world d)
        ++ [SendMessage (interviewId (page (world d)))
              (formattedMessage (CodeEditor.code st) (CodeEditor.language st))
              (orUndefined (sessionRunId (page (world d))))])%list.
Proof.
  intros He Hr. cbv zeta. unfold deskStep. rewrite He.
  unfold editorRendered in Hr.
  destruct (location (page (world d))) eqn:Hl; [|discriminate].
  cbn [CodeEditor.handleSubmit]. unfold step. rewrite Hl, Hr.
  unfold render, editorRendered, afterSend, handleCodeSubmit, sendMutate.
  cbn. rewrite Hl. rewrite andb_false_r. split; reflexivity.
Qed.

(** C7, at the failing input. The run of the sample is resumed, the
    candidate opens the code editor, types code and presses "Run &
    Submit"; the call fails (the generation fails, the store stays as it
    was). The submit handler has closed the editor when it sent the
    request, and with the editor its state is gone: after the failure no
    editor is rendered, the chat draft holds nothing of the code, nothing
    is pending, and opening the editor again shows the initial template,
    not the code that was submitted. *)
Theorem failed_code_submission_loses_the_code :
  let typed := deskRun Scenario.getTime Samples.codeTyped
                       (mountDesk "interview-0") in
  let sent := deskStep Scenario.getTime RunAndSubmit typed in
  let request := SendMessage "interview-0"
                   (formattedMessage "print(1)" "python") (Some "run-0") in
  let failed := deskStep Scenario.getTime (OnPage (SendFailed 0)) sent in
  let reopened := deskStep Scenario.getTime (OnPage ToggleCode) failed in
  editor typed = Some (CodeEditor.mk "print(1)" "python")
  /\ requests (world sent) = [request]
  /\ sendsInFlight (world sent) = [0%nat]
  /\ editor sent = None
  /\ serve Scenario.failing "2025-01-01T10:07:00Z" request Scenario.store
     = (Scenario.store, Failed Backend.GenerationFailedError)
  /\ editor failed = None
  /\ userMessage (page (world failed)) = ""
  /\ sendPending (page (world failed)) = false
  /\ editor reopened
     = Some (CodeEditor.mk ("# Write your code here" ++ nl) "python").
Proof. vm_compute. repeat split; reflexivity. Qed.

(** ** Entering twice *)










(** The older revision of the page sends a start request at every mount,
    whatever the store holds. *)
Lemma older_page_calls_start_at_every_mount (iid : string) :
  truthy iid = true ->
  snd (autoStartEffect_old (initialPage iid)) = [StartInterview iid].
Proof.
  intros H. unfold autoStartEffect_old. cbn. rewrite H. reflexivity.
Qed.

(** Entered twice in a row, the older page holds a new run the second
    time. *)
Lemma older_page_holds_a_new_run_each_time :
  let e1 := enterInterview_old Scenario.collaborator "2025-01-01T10:00:00Z"
              "interview-0" Scenario.fresh in
  let e2 := enterInterview_old Scenario.collaborator "2025-01-01T10:01:00Z"
              "interview-0" (snd e1) in
  sessionRunId (fst e1) = Some "run-0"
  /\ sessionRunId (fst e2) = Some "run-1"
  /\ map InterviewSession.session_run_id (Backend.turns (snd e2))
     = [Some "run-0"; Some "run-1"].
Proof. vm_compute. repeat split; reflexivity. Qed.





(** * Further properties of the pages *)

(** ** The resume effect runs once *)

(** X1. Running the resume effect again on the state it produced changes
    nothing and sends nothing: a re-run of the effect never sends a second
    start request. *)
Theorem resume_effect_is_idempotent (p : Page) :
  resumeEffect (fst (resumeEffect p)) = (fst (resumeEffect p), []).
Proof.
  unfold resumeEffect at 2 3.
  destruct (isLoadingLatest p) eqn:Hl; cbn [fst].
  { unfold resumeEffect. rewrite Hl. reflexivity. }
  destruct (latestSession p) as [t|] eqn:Ht.
  - destruct (isEndedSession t) eqn:He.
    + destruct (negb (started p) && negb (startPending p)) eqn:Hs; cbn [fst].
      * unfold resumeEffect, startMutate. cbn. rewrite Hl, Ht, He.
        rewrite andb_false_r. reflexivity.
      * unfold resumeEffect. rewrite Hl, Ht, He, Hs. reflexivity.
    + destruct (truthyOpt (InterviewSession.session_run_id t)) eqn:Hr; cbn [fst].
      * unfold resumeEffect. cbn. rewrite Hl, Ht, He, Hr. reflexivity.
      * unfold resumeEffect. rewrite Hl, Ht, He, Hr. reflexivity.
  - destruct (negb (started p) && negb (startPending p)) eqn:Hs; cbn [fst].
    + unfold resumeEffect, startMutate. cbn. rewrite Hl, Ht.
      rewrite andb_false_r. reflexivity.
    + unfold resumeEffect. rewrite Hl, Ht, Hs. reflexivity.
Qed.

(** Once the chat is gone it stays gone, and no event sends an answer. *)
Lemma step_chatClosed getTime (e : Event) (w : World) :
  chatClosed w ->
  chatClosed (step getTime e w)
  /\ filter isSend (requests (step getTime e w)) = filter isSend (requests w).
Proof.
  unfold chatClosed. intros [H|H].
  - destruct e; step_cases; cbn [page requests summary location fst snd
      setLatest setInterview setSessions setStartPending setStarted
      setSessionRunId setOpeningQuestion setUserMessage setSend setSummary
      setElapsedTime setDurationMinutes setIsCodeOpen navigate];
      rewrite ?filter_app, ?app_nil_r; cbn [filter isSend app];
      rewrite ?app_nil_r; auto;
      try (unfold chatShown, inputEnabled in *; rewrite H in *;
           cbn in *; discriminate).
  - unfold step. rewrite H. auto.
Qed.

(** ** Once started *)

Lemma step_started getTime (e : Event) (w : World) :
  started (page w) = true ->
  started (page (step getTime e w)) = true
  /\ filter isStart (requests (step getTime e w)) = filter isStart (requests w).
Proof.
  intros H.
  destruct e; step_cases; page_fields;
    rewrite ?filter_app, ?app_nil_r; cbn [filter isStart app];
    rewrite ?app_nil_r; auto;
    rewrite H in *; cbn in *; discriminate.
Qed.

(** X2. Once the page is started it stays started, and whatever happens
    next it sends no further start request. *)
Theorem started_page_never_starts_again getTime (es : list Event) (w : World) :
  started (page w) = true ->
  started (page (run getTime es w)) = true
  /\ filter isStart (requests (run getTime es w)) = filter isStart (requests w).
Proof.
  revert w. induction es as [|e es IH]; intros w H; [auto|].
  rewrite run_cons. destruct (step_started getTime e w H) as [H1 H2].
  destruct (IH _ H1) as [H3 H4]. split; [exact H3|]. rewrite H4. exact H2.
Qed.

(** ** One start call at a time *)

Lemma step_startsWithin getTime (e : Event) (w : World) (n : nat) :
  startsWithin n w ->
  startsWithin (n + (if isStartSettled e then 1 else 0)) (step getTime e w).
Proof.
  unfold startsWithin, startsSent. intros H.
  destruct e; cbn [isStartSettled]; step_cases; page_fields_everywhere;
    rewrite ?filter_app, ?length_app, ?app_nil_r; cbn [filter isStart length];
    repeat match goal with
           | Hp : startPending _ = _ |- _ => rewrite Hp in *
           | Hp : _ && negb (startPending _) = true |- _ =>
               apply andb_true_iff in Hp; destruct Hp as [_ Hp];
               apply negb_true_iff in Hp
           end;
    try discriminate; try lia.
Qed.

Lemma run_startsWithin getTime (es : list Event) (w : World) (n : nat) :
  startsWithin n w ->
  startsWithin (n + length (filter isStartSettled es)) (run getTime es w).
Proof.
  revert w n. induction es as [|e es IH]; intros w n H.
  - cbn. rewrite Nat.add_0_r. exact H.
  - rewrite run_cons. apply (step_startsWithin getTime e) in H.
    apply IH in H. cbn [filter].
    destruct (isStartSettled e); cbn [length] in *.
    + replace (n + S (length (filter isStartSettled es)))%nat
        with (n + 1 + length (filter isStartSettled es))%nat by lia. exact H.
    + rewrite Nat.add_0_r in H. exact H.
Qed.

(** X3. From a fresh page, the start requests sent never exceed the start
    responses delivered by more than one: a start call is never sent while
    another one is outstanding. *)
Theorem one_start_call_at_a_time getTime (iid : string) (es : list Event) :
  (startsSent (run getTime es (mount iid))
   <= S (length (filter isStartSettled es)))%nat.
Proof.
  assert (H0 : startsWithin 0 (mount iid)) by (cbv; lia).
  apply (run_startsWithin getTime es) in H0. unfold startsWithin in H0.
  cbn [Nat.add] in H0. destruct (startPending _); lia.
Qed.

(** ** Requests carry the page's interview and a real run *)

Lemma orUndefined_real (x : option string) :
  match orUndefined x with Some s => truthy s | None => true end = true.
Proof.
  unfold orUndefined. destruct (truthyOpt x) eqn:H; [|reflexivity].
  destruct x; [exact H|reflexivity].
Qed.

Lemma step_requestsFor getTime iid (e : Event) (w : World) :
  requestsFor iid w -> requestsFor iid (step getTime e w).
Proof.
  unfold requestsFor. intros [Hi Hr].
  destruct e; step_cases; page_fields;
    rewrite ?forallb_app, ?app_nil_r, ?Hr; cbn [forallb requestFor andb];
    rewrite ?Hi, ?String.eqb_refl, ?orUndefined_real; auto.
Qed.

(** X12. Every request the page sends names the page's own interview,
    and its run identifier is either absent or a non-empty string. *)
Theorem requests_name_the_interview_and_a_real_run
    getTime (iid : string) (es : list Event) (r : Request) :
  In r (requests (run getTime es (mount iid))) -> requestFor iid r = true.
Proof.
  assert (H : requestsFor iid (run getTime es (mount iid))).
  { assert (H0 : requestsFor iid (mount iid)) by (split; reflexivity).
    revert H0. generalize (mount iid).
    induction es as [|e es IH]; intros w H0; [exact H0|].
    rewrite run_cons. apply IH, step_requestsFor, H0. }
  destruct H as [_ H]. rewrite forallb_forall in H. apply H.
Qed.

(** ** Send bookkeeping *)

Lemma NoDup_snoc_fresh (l : list nat) (n : nat) :
  NoDup l -> (forall m, In m l -> (m < n)%nat) -> NoDup (l ++ [n]).
Proof.
  intros Hnd Hlt. apply NoDup_app; [exact Hnd|repeat constructor; intros []|].
  intros m Hm [->|[]]. specialize (Hlt _ Hm). lia.
Qed.

Lemma mutate_consistent (w : World) (p' : Page) :
  sendCurrent p' = Some (sendCount (page w)) ->
  sendCount p' = S (sendCount (page w)) ->
  sendsConsistent w ->
  sendsConsistent
    (mkWorld p' (timer w) (requests w)
             (sendsInFlight w ++ [sendCount (page w)]) (endsInFlight w)).
Proof.
  intros Hc Hn (Hnd & Hlt & Hcur). unfold sendsConsistent. cbn.
  rewrite Hc, Hn. repeat split.
  - apply NoDup_snoc_fresh; assumption.
  - intros m Hm. apply in_app_or in Hm. destruct Hm as [Hm|[<-|[]]]; [|lia].
    specialize (Hlt _ Hm). lia.
  - intros m Hm. injection Hm as <-. apply in_or_app. right. left. reflexivity.
Qed.

Lemma settle_consistent (w : World) (m : nat) (p' : Page) :
  sendCount p' = sendCount (page w) ->
  sendCurrent p'
  = match sendCurrent (page w) with
    | Some c => if (c =? m)%nat then None else Some c
    | None => None
    end ->
  sendsConsistent w ->
  sendsConsistent
    (mkWorld p' (timer w) (requests w)
             (filter (fun x => negb (x =? m)%nat) (sendsInFlight w))
             (endsInFlight w)).
Proof.
  intros Hn Hc (Hnd & Hlt & Hcur). unfold sendsConsistent. cbn.
  rewrite Hn, Hc. repeat split.
  - apply NoDup_filter, Hnd.
  - intros x Hx. apply filter_In in Hx. apply Hlt, Hx.
  - intros x Hx. destruct (sendCurrent (page w)) as [c|]; [|discriminate].
    destruct (Nat.eqb_spec c m); [discriminate|]. injection Hx as <-.
    apply filter_In. split; [apply Hcur; reflexivity|].
    apply negb_true_iff, Nat.eqb_neq. assumption.
Qed.

Lemma unchanged_consistent (w w' : World) :
  sendsInFlight w' = sendsInFlight w ->
  sendCurrent (page w') = sendCurrent (page w) ->
  sendCount (page w') = sendCount (page w) ->
  sendsConsistent w -> sendsConsistent w'.
Proof.
  unfold sendsConsistent. intros -> -> ->. auto.
Qed.

Lemma step_sendsConsistent getTime (e : Event) (w : World) :
  sendsConsistent w -> sendsConsistent (step getTime e w).
Proof.
  intros H. unfold step. destruct (location (page w)); [|exact H].
  destruct e;
    try (apply (unchanged_consistent (w := w)); [| | |exact H];
         step_cases; reflexivity).
  - (* SendSucceeded *)
    destruct (sendInFlight mutation w); [|exact H].
    apply (settle_consistent (w := w)); [| |exact H];
      unfold sendOnSuccess, settleSend; cbn;
      (destruct (sendCurrent (page w)) as [c|] eqn:Hc;
       [destruct (c =? mutation)%nat|]); cbn; rewrite ?Hc; reflexivity.
  - (* SendFailed *)
    destruct (sendInFlight mutation w); [|exact H].
    apply (settle_consistent (w := w)); [| |exact H];
      unfold sendOnError, settleSend; cbn;
      (destruct (sendCurrent (page w)) as [c|] eqn:Hc;
       [destruct (c =? mutation)%nat|]); cbn; rewrite ?Hc; reflexivity.
  - (* SubmitForm *)
    destruct (chatShown (page w) && started (page w)); [|exact H].
    unfold handleSendMessage.
    destruct (negb (truthy (trim (userMessage (page w)))) || sendPending (page w)).
    + apply (unchanged_consistent (w := w)); [| | |exact H]; reflexivity.
    + apply (mutate_consistent (w := w)); [| |exact H]; reflexivity.
  - (* CodeSubmitted *)
    destruct (negb (truthyOpt (summary (page w))) && isCodeOpen (page w));
      [|exact H].
    apply (mutate_consistent (w := w)); [| |exact H]; reflexivity.
Qed.

(** X11. After any events on a fresh page, the [sendMessage] calls awaiting
    a response are numbered apart and below the next number, and whenever
    the mutation is pending the call it follows is among them. *)
Theorem send_bookkeeping_is_consistent getTime (iid : string) (es : list Event) :
  sendsConsistent (run getTime es (mount iid)).
Proof.
  assert (H0 : sendsConsistent (mount iid)).
  { split; [constructor|split; [intros m []|intros m Hm; discriminate]]. }
  revert H0. generalize (mount iid).
  induction es as [|e es IH]; intros w H0; [exact H0|].
  rewrite run_cons. apply IH, step_sendsConsistent, H0.
Qed.

(** ** The timer, further *)

Lemma tick_past_deadline getTime (t : Timer) (T now : Z) (w : World) :
  timer w = Some t ->
  location (page w) = OnInterviewPage ->
  startTime t = Some T ->
  T + timerDuration t * 60000 <= now ->
  let w' := step getTime (Tick now) w in
  timer w' = Some t
  /\ location (page w') = OnInterviewPage
  /\ interviewId (page w') = interviewId (page w)
  /\ requests w'
     = (requests w
        ++ [EndInterview (interviewId (page w)) (orUndefined (timerRunId t))])%list.
Proof.
  intros Ht Hl HT Hnow. cbv zeta. unfold step. rewrite Hl, Ht.
  pose proof (proj1 (timer_fires_iff t now (page w) HT)) as Hf.
  unfold firesAt in Hf.
  unfold afterEnd. cbn [timer requests page].
  rewrite (proj2 Hf Hnow).
  unfold updateTimer, handleEndCall.
  destruct (numGe _ _); cbn; auto.
Qed.

(** X7. The guard does not disarm: with the interval installed and the
    page still open, every tick at or after the deadline sends one more end
    request. *)
Theorem every_tick_past_the_deadline_ends_again
    getTime (t : Timer) (T : Z) (nows : list Z) (w : World) :
  timer w = Some t ->
  location (page w) = OnInterviewPage ->
  startTime t = Some T ->
  Forall (fun now => T + timerDuration t * 60000 <= now) nows ->
  requests (run getTime (map Tick nows) w)
  = (requests w
     ++ repeat (EndInterview (interviewId (page w)) (orUndefined (timerRunId t)))
               (length nows))%list.
Proof.
  intros Ht Hl HT Hall. revert w Ht Hl.
  induction Hall as [|now nows Hnow _ IH]; intros w Ht Hl.
  - cbn. rewrite app_nil_r. reflexivity.
  - cbn [map]. rewrite run_cons.
    destruct (@tick_past_deadline getTime t T now w Ht Hl HT Hnow)
      as (Ht' & Hl' & Hi' & Hr').
    rewrite (IH _ Ht' Hl'), Hr', Hi', <- app_assoc. reflexivity.
Qed.

(** X8. When the loaded history has no opening turn, the timer effect
    counts on from the elapsed time on display: its first update shows
    the same number of seconds, or zero when nothing had elapsed. *)
Theorem timer_resumes_from_shown_time_without_opening_turn
    getTime (now e : Z) (p : Page) :
  started p = true ->
  truthyOpt (sessionRunId p) = true ->
  find isOpeningSession (sessions p) = None ->
  elapsedTime p = Some e ->
  elapsedTime (fst (fst (timerEffect getTime now p)))
  = Some (if 0 <? e then e else 0).
Proof.
  intros Hs Hr Hf He. unfold timerEffect. rewrite Hs, Hr. cbn [negb orb].
  unfold timerStartTime. rewrite Hf, He.
  unfold updateTimer, secondsElapsed, handleEndCall. cbn [startTime].
  destruct (0 <? e); cbn [startTime]; destruct (numGe _ _); cbn; f_equal.
  - replace (now - (now - e * 1000)) with (e * 1000) by lia. apply Z_div_mult. lia.
  - replace (now - (now - e * 1000)) with (e * 1000) by lia. apply Z_div_mult. lia.
  - rewrite Z.sub_diag. reflexivity.
  - rewrite Z.sub_diag. reflexivity.
Qed.

(** X9. When the opening turn's timestamp does not parse, the elapsed
    time becomes NaN and neither the effect nor any later tick asks to end
    the run. *)
Theorem unreadable_opening_timestamp_disables_the_guard
    getTime (now : Z) (p : Page) (s : Turn) :
  started p = true ->
  truthyOpt (sessionRunId p) = true ->
  find isOpeningSession (sessions p) = Some s ->
  getTime (InterviewSession.created_at s) = None ->
  exists t,
    timerEffect getTime now p = (setElapsedTime None p, Some t, [])
    /\ forall later p', updateTimer t later p' = (setElapsedTime None p', []).
Proof.
  intros Hs Hr Hf Hg. unfold timerEffect. rewrite Hs, Hr. cbn [negb orb].
  unfold timerStartTime. rewrite Hf, Hg.
  eexists. split; reflexivity.
Qed.

(** ** After the end *)

Lemma run_chatClosed getTime (es : list Event) (w : World) :
  chatClosed w ->
  chatClosed (run getTime es w)
  /\ filter isSend (requests (run getTime es w)) = filter isSend (requests w).
Proof.
  revert w. induction es as [|e es IH]; intros w H; [auto|].
  rewrite run_cons. destruct (step_chatClosed getTime e H) as [H1 H2].
  destruct (IH _ H1) as [H3 H4]. split; [exact H3|]. rewrite H4. exact H2.
Qed.

(** X14. Once an end response has arrived, the summary view is up or the
    page has been left, for good, and no answer is sent any more. *)
Theorem no_answer_is_sent_after_an_end_response
    getTime (response : option EndInterviewResponse.t)
    (es : list Event) (w : World) :
  location (page w) = OnInterviewPage ->
  (0 < endsInFlight w)%nat ->
  let w1 := step getTime (EndResponded response) w in
  chatClosed (run getTime es w1)
  /\ filter isSend (requests (run getTime es w1)) = filter isSend (requests w).
Proof.
  intros Hl Hn. cbv zeta.
  assert (H1 : chatClosed (step getTime (EndResponded response) w)
               /\ requests (step getTime (EndResponded response) w) = requests w).
  { unfold step. rewrite Hl. destruct (endsInFlight w); [lia|].
    unfold chatClosed, endOnResponse. cbn.
    destruct response as [r|];
      [destruct (truthyOpt (EndInterviewResponse.summary r)) eqn:Hr|]; cbn;
      (split; [first [left; assumption | right; reflexivity]|reflexivity]). }
  destruct H1 as [Hc Hr].
  destruct (run_chatClosed getTime es Hc) as [H2 H3].
  split; [exact H2|]. rewrite H3, Hr. reflexivity.
Qed.

(** ** White space around an answer *)

Lemma firstIsSpace_trimStart (s : string) : firstIsSpace (trimStart s) = false.
Proof.
  induction s as [|c r IH]; cbn; [reflexivity|].
  destruct (isSpace c) eqn:Hc; [exact IH|]. cbn. exact Hc.
Qed.

Lemma trimStart_fixed (s : string) :
  firstIsSpace s = false -> trimStart s = s.
Proof. destruct s as [|c r]; cbn; [reflexivity|]. intros ->. reflexivity. Qed.

Lemma trimStart_suffix (s : string) : exists pre, s = pre ++ trimStart s.
Proof.
  induction s as [|c r [pre IH]]; cbn.
  - exists "". reflexivity.
  - destruct (isSpace c).
    + exists (String c pre). cbn. rewrite <- IH. reflexivity.
    + exists "". reflexivity.
Qed.

Lemma list_of_append (s1 s2 : string) :
  list_ascii_of_string (s1 ++ s2)
  = (list_ascii_of_string s1 ++ list_ascii_of_string s2)%list.
Proof. induction s1 as [|c r IH]; cbn; [reflexivity|]. rewrite IH. reflexivity. Qed.

Lemma string_of_app (l1 l2 : list ascii) :
  string_of_list_ascii (l1 ++ l2)
  = string_of_list_ascii l1 ++ string_of_list_ascii l2.
Proof. induction l1 as [|c r IH]; cbn; [reflexivity|]. rewrite IH. reflexivity. Qed.

Lemma reverse_append (s1 s2 : string) :
  reverse (s1 ++ s2) = reverse s2 ++ reverse s1.
Proof.
  unfold reverse. rewrite list_of_append, rev_app_distr. apply string_of_app.
Qed.

Lemma reverse_involutive (s : string) : reverse (reverse s) = s.
Proof.
  unfold reverse. rewrite list_ascii_of_string_of_list_ascii, rev_involutive.
  apply string_of_list_ascii_of_string.
Qed.

Lemma firstIsSpace_append (s1 s2 : string) :
  s1 <> "" -> firstIsSpace (s1 ++ s2) = firstIsSpace s1.
Proof. destruct s1; [congruence|reflexivity]. Qed.

Lemma trim_ends (s : string) :
  firstIsSpace (trim s) = false /\ lastIsSpace (trim s) = false.
Proof.
  unfold trim, lastIsSpace. set (a := trimStart s).
  set (b := trimStart (reverse a)). rewrite reverse_involutive.
  split; [|apply firstIsSpace_trimStart].
  destruct (trimStart_suffix (reverse a)) as [pre Hpre]. fold b in Hpre.
  assert (Ha : a = reverse b ++ reverse pre).
  { rewrite <- (reverse_involutive a), Hpre. apply reverse_append. }
  destruct (string_dec (reverse b) "") as [He|Hne].
  - rewrite He. reflexivity.
  - rewrite <- (firstIsSpace_append (reverse pre) Hne), <- Ha.
    apply firstIsSpace_trimStart.
Qed.

Lemma trim_idempotent (s : string) : trim (trim s) = trim s.
Proof.
  destruct (trim_ends s) as [Hfirst _].
  unfold trim at 1. rewrite (trimStart_fixed _ Hfirst).
  unfold trim. rewrite reverse_involutive.
  rewrite (trimStart_fixed _ (firstIsSpace_trimStart _)). reflexivity.
Qed.

(** X13. An answer sent from the chat form is the draft with its
    surrounding white space, no-break spaces included, removed: it is
    not empty, neither starts nor ends with white space, and trimming it
    again changes nothing. *)
Theorem chat_form_sends_trimmed_answer (p : Page) (r : Request) :
  In r (snd (handleSendMessage p)) ->
  exists m,
    r = SendMessage (interviewId p) m (orUndefined (sessionRunId p))
    /\ m = trim (userMessage p)
    /\ m <> ""
    /\ firstIsSpace m = false
    /\ lastIsSpace m = false
    /\ trim m = m.
Proof.
  unfold handleSendMessage.
  destruct (truthy (trim (userMessage p))) eqn:Ht; cbn [negb orb];
    [|intros []].
  destruct (sendPending p); [intros []|].
  cbn. intros [<-|[]]. exists (trim (userMessage p)).
  destruct (trim_ends (userMessage p)) as [H1 H2].
  repeat split; auto using trim_idempotent.
  intros He. rewrite He in Ht. discriminate.
Qed.

(** No-break spaces count as white space: around an answer they are
    removed, and a draft of nothing else sends nothing. *)
Lemma no_break_spaces_are_trimmed :
  let p := page Samples.resumed in
  snd (handleSendMessage (setUserMessage (nbsp ++ "hi" ++ nbsp) p))
  = [SendMessage "interview-0" "hi" (Some "run-0")]
  /\ snd (handleSendMessage (setUserMessage (nbsp ++ nbsp) p)) = [].
Proof. vm_compute. split; reflexivity. Qed.

(** ** What the transcript holds *)

(** X15. With a non-empty history the transcript shows every turn's
    system message exactly once, in stored order, and the candidate
    messages of exactly the turns that are not opening turns, in stored
    order. *)
Theorem transcript_keeps_every_message_once
    (nowIso : string) (openingQuestion : option string)
    (first : Turn) (rest : list Turn) :
  let shown := messages nowIso openingQuestion (first :: rest) in
  map Message.content (filter isAi shown)
  = map InterviewSession.ai_message (first :: rest)
  /\ map Message.content (filter (fun m => negb (isAi m)) shown)
     = map InterviewSession.user_message
           (filter (fun t => negb (isOpeningSession t)) (first :: rest)).
Proof.
  cbv zeta. unfold messages. rewrite openingMessages_nonempty. cbn [app].
  generalize (first :: rest). intros l.
  induction l as [|t l [IH1 IH2]]; [split; reflexivity|].
  cbn [flat_map]. rewrite !filter_app, !map_app, IH1, IH2.
  unfold sessionMessages. cbn [filter map].
  destruct (isOpeningSession t); split; reflexivity.
Qed.

(** X16. The feedback boxes of the transcript are, in order, the non-empty
    feedback texts of the stored turns; candidate messages and the
    placeholder opening question never carry one. *)
Theorem feedback_boxes_match_turns
    (nowIso : string) (openingQuestion : option string) (sessions : list Turn) :
  map Message.feedback
      (filter ChatMessage.showsFeedback
              (messages nowIso openingQuestion sessions))
  = filter truthyOpt (map InterviewSession.feedback sessions).
Proof.
  unfold messages. rewrite filter_app, map_app.
  assert (H0 : filter ChatMessage.showsFeedback
                 (openingMessages nowIso openingQuestion sessions) = []).
  { unfold openingMessages. destruct openingQuestion as [q|]; [|reflexivity].
    destruct (_ && _); reflexivity. }
  rewrite H0. clear H0. cbn [map app].
  induction sessions as [|t l IH]; [reflexivity|].
  cbn [flat_map map filter]. rewrite filter_app, map_app, IH.
  unfold sessionMessages, ChatMessage.showsFeedback, isAi.
  destruct (isOpeningSession t); cbn;
    destruct (truthyOpt (InterviewSession.feedback t)); reflexivity.
Qed.

(** X17. On the older page a non-empty history is shown without its
    opening turns, and each remaining turn as system message followed by
    candidate message; the opening question placeholder is not shown. *)
Theorem older_page_transcript
    (nowIso : string) (openingQuestion : option string)
    (first : Turn) (rest : list Turn) :
  messages_old nowIso openingQuestion (first :: rest)
  = flat_map (fun t => [aiMessageOf t; userMessageOf t])
             (filter (fun t => negb (isOpeningSession t)) (first :: rest)).
Proof.
  unfold messages_old.
  assert (H0 : match openingQuestion with
               | Some q =>
                   if truthy q && (length (first :: rest) =? 0)%nat
                   then [Message.mk "opening" ai q None nowIso]
                   else []
               | None => []
               end = []).
  { destruct openingQuestion; [|reflexivity].
    cbn [length Nat.eqb]. rewrite andb_false_r. reflexivity. }
  rewrite H0. cbn [app]. generalize (first :: rest). intros l.
  induction l as [|t l IH]; [reflexivity|].
  cbn [flat_map filter]. unfold sessionMessages_old at 1.
  destruct (isOpeningSession t); cbn [negb flat_map app]; rewrite IH; reflexivity.
Qed.

(** ** The clock display *)

Lemma padded_below_hundred (k : nat) :
  (k < 100)%nat -> padStart0 2 (toStringZ (Z.of_nat k)) = twoDigits (Z.of_nat k).
Proof.
  intros H.
  do 100 (destruct k as [|k]; [vm_compute; reflexivity|]).
  lia.
Qed.

(** X18. Below one hundred minutes the clock shows two digits of minutes,
    a colon and two digits of seconds. *)
Theorem formatTime_is_zero_padded (s : Z) :
  0 <= s < 6000 ->
  formatTime (Some s) = twoDigits (s / 60) ++ ":" ++ twoDigits (s mod 60).
Proof.
  intros Hs. unfold formatTime.
  rewrite Z.rem_mod_nonneg by lia.
  assert (Hm : 0 <= s / 60 < 100).
  { split; [apply Z.div_pos; lia|apply Z.div_lt_upper_bound; lia]. }
  pose proof (Z.mod_pos_bound s 60 ltac:(lia)) as Hr.
  rewrite <- (Z2Nat.id (s / 60)) by lia.
  rewrite <- (Z2Nat.id (s mod 60)) by lia.
  rewrite !padded_below_hundred by lia. reflexivity.
Qed.

(** ** The duration field *)

(** X20. Typing the decimal form of a whole number into the duration
    field puts the number value of that number in the form state, 30 when
    it is zero: below [2^53] in magnitude the number itself, unclamped;
    from there on the nearest double. *)
Theorem duration_field_reads_back_its_value (z : Z)
    (st : StartInterviewForm.State) :
  let typed := StartInterviewForm.durationMinutes
                 (StartInterviewForm.step
                    (StartInterviewForm.DurationChanged (toStringZ z)) st) in
  typed = StartInterviewForm.orDefault (StartInterviewForm.toNumber z)
  /\ (Z.abs z < 9007199254740992 ->
      typed = StartInterviewForm.Finite (if z =? 0 then 30 else z)).
Proof.
  cbv zeta.
  cbn [StartInterviewForm.step StartInterviewForm.durationMinutes].
  rewrite parseInt_of_toStringZ.
  split; [reflexivity|]. intros Hsafe.
  rewrite toNumber_exact by exact Hsafe. cbn [StartInterviewForm.orDefault].
  destruct (z =? 0); reflexivity.
Qed.

(** ** What the form submits *)

(** X19. The submit handler sends at most one request, none for a title
    that is blank after trimming; the request is an update of the
    interview being edited or else a creation, and carries the title as
    typed, untrimmed, with the duration of the form state. *)
Theorem form_request_shape (st : StartInterviewForm.State)
    (r : StartInterviewForm.Request) :
  In r (StartInterviewForm.handleSubmit st) ->
  StartInterviewForm.handleSubmit st = [r]
  /\ trim (StartInterviewForm.title st) <> ""
  /\ r = match StartInterviewForm.interview st with
         | Some i =>
             StartInterviewForm.UpdateInterview (Interview.id i)
               (StartInterviewForm.title st)
               (StartInterviewForm.durationMinutes st)
         | None =>
             StartInterviewForm.CreateInterview
               (StartInterviewForm.title st)
               (StartInterviewForm.durationMinutes st)
         end.
Proof.
  unfold StartInterviewForm.handleSubmit, StartInterviewForm.mutationFn.
  destruct (truthy (trim (StartInterviewForm.title st))) eqn:Ht; cbn [negb];
    [|intros []].
  intros [<-|[]]. repeat split.
  intros He. rewrite He in Ht. discriminate.
Qed.

(** A title of white space only, no-break spaces included, is blank. *)
Lemma blank_title_sends_nothing :
  StartInterviewForm.handleSubmit
    (StartInterviewForm.run
       [StartInterviewForm.TitleChanged (" " ++ nbsp ++ nl ++ nbsp)]
       (StartInterviewForm.init None)) = [].
Proof. vm_compute. reflexivity. Qed.

(** ** Documents *)

Lemma step_filesArePdf (e : Documents.Event) (st : Documents.State) :
  filesArePdf st -> filesArePdf (Documents.step e st).
Proof.
  intros [Hjd Hcv]. unfold filesArePdf.
  destruct e as [[f|]|[f|]| | |v|]; cbn;
    unfold Documents.handleJobDescriptionFileChange,
      Documents.handleCVFileChange, Documents.onJobDescriptionTextChange;
    try (destruct (Documents.isPdf f) eqn:Hf; cbn);
    try (destruct (Documents.jobDescriptionFile st) eqn:Hj; cbn);
    try (destruct (truthy v); cbn);
    split; intros g Hg; try discriminate; auto;
    try (injection Hg as <-; auto; fail);
    try (rewrite Hj in *; auto; fail).
Qed.

Lemma run_filesArePdf (es : list Documents.Event) (st : Documents.State) :
  filesArePdf st -> filesArePdf (Documents.run es st).
Proof.
  revert st. induction es as [|e es IH]; intros st H; [exact H|].
  cbn. apply IH, step_filesArePdf, H.
Qed.

(** X21. Whatever files were offered to the two file inputs, every file
    the form uploads has the type [application/pdf]. *)
Theorem only_pdf_files_are_uploaded
    (interviewId : string) (es : list Documents.Event) (u : Documents.Upload)
    (f : Documents.File) :
  In u (Documents.uploadPromises interviewId (Documents.run es Documents.init)) ->
  Documents.uploadedFile u = Some f ->
  Documents.type f = "application/pdf".
Proof.
  assert (H : filesArePdf (Documents.run es Documents.init)).
  { apply run_filesArePdf. split; intros g Hg; discriminate. }
  destruct H as [Hjd Hcv]. unfold Documents.uploadPromises.
  intros Hin Hu. apply String.eqb_eq. change (Documents.isPdf f = true).
  apply in_app_or in Hin. destruct Hin as [Hin|Hin].
  - destruct (truthy _ && _).
    + destruct Hin as [<-|[]]. discriminate.
    + destruct (Documents.jobDescriptionFile _) as [g|] eqn:Hg; [|destruct Hin].
      destruct Hin as [<-|[]]. injection Hu as <-. auto.
  - destruct (Documents.cvFile _) as [g|] eqn:Hg; [|destruct Hin].
    destruct Hin as [<-|[]]. injection Hu as <-. auto.
Qed.

Lemma step_textOrFile (e : Documents.Event) (st : Documents.State) :
  textOrFile st -> textOrFile (Documents.step e st).
Proof.
  unfold textOrFile. intros H.
  destruct e as [[f|]|[f|]| | |v|]; cbn;
    unfold Documents.handleJobDescriptionFileChange,
      Documents.handleCVFileChange, Documents.onJobDescriptionTextChange;
    try (destruct (Documents.isPdf f); cbn); auto; try discriminate.
  destruct (Documents.jobDescriptionFile st) eqn:Hj; cbn.
  - rewrite Hj. exact H.
  - intros ->. reflexivity.
Qed.

(** X22. Pasted job description text and a job description file never
    coexist: whenever the text field holds text, no file is set and the
    uploads start with the processing of exactly that text. *)
Theorem pasted_text_is_processed
    (interviewId : string) (es : list Documents.Event) :
  let st := Documents.run es Documents.init in
  truthy (Documents.jobDescriptionText st) = true ->
  Documents.jobDescriptionFile st = None
  /\ Documents.uploadPromises interviewId st
     = (Documents.ProcessJobDescriptionText interviewId
          (Documents.jobDescriptionText st)
        :: match Documents.cvFile st with
           | Some f => [Documents.UploadCV interviewId f]
           | None => []
           end).
Proof.
  cbv zeta.
  assert (H : textOrFile (Documents.run es Documents.init)).
  { assert (H0 : textOrFile Documents.init) by (intros H; discriminate).
    revert H0. generalize Documents.init.
    induction es as [|e es IH]; intros st H0; [exact H0|].
    cbn. apply IH, step_textOrFile, H0. }
  intros Ht. pose proof (H Ht) as Hf. split; [exact Hf|].
  unfold Documents.uploadPromises. rewrite Ht, Hf. reflexivity.
Qed.

(** ** Previews *)

Lemma substring_all (s : string) (n : nat) :
  (String.length s <= n)%nat -> substring 0 n s = s.
Proof.
  revert n. induction s as [|c r IH]; intros n H.
  - destruct n; reflexivity.
  - destruct n; cbn in *; [lia|]. rewrite IH by lia. reflexivity.
Qed.

Lemma substring_length_le (s : string) (n : nat) :
  (String.length (substring 0 n s) <= n)%nat.
Proof.
  revert n. induction s as [|c r IH]; intros n.
  - destruct n; cbn; lia.
  - destruct n; cbn; [lia|]. specialize (IH n). lia.
Qed.

Lemma length_append (s1 s2 : string) :
  String.length (s1 ++ s2) = (String.length s1 + String.length s2)%nat.
Proof. induction s1; cbn; auto. Qed.

Lemma append_empty_r (s : string) : s ++ "" = s.
Proof. induction s; cbn; congruence. Qed.

(** X23. The dashboard card and the edit form shorten a text the same
    way; the preview has at most 103 characters and is the text itself up
    to 100 characters. *)
Theorem previews_agree_and_are_short (text : string) :
  Dashboard.preview text = Documents.preview text
  /\ (String.length (Dashboard.preview text) <= 103)%nat
  /\ ((String.length text <= 100)%nat -> Dashboard.preview text = text).
Proof.
  unfold Dashboard.preview, Documents.preview.
  destruct (Nat.ltb_spec 100 (String.length text)) as [Hlong|Hshort].
  - repeat split; [|lia]. rewrite length_append.
    pose proof (substring_length_le text 100). cbn. lia.
  - rewrite append_empty_r, substring_all by lia. repeat split. lia.
Qed.

(** ** Dashboard *)

(** X24. Whenever the dashboard's form is hidden no interview is being
    edited, so that the next form opened from the start button is a
    creation form. *)
Theorem hidden_form_is_not_editing (es : list Dashboard.Event) :
  let st := Dashboard.run es Dashboard.init in
  Dashboard.showForm st = false -> Dashboard.editingInterview st = None.
Proof.
  cbv zeta.
  assert (H0 : Dashboard.showForm Dashboard.init = false ->
               Dashboard.editingInterview Dashboard.init = None)
    by reflexivity.
  revert H0. generalize Dashboard.init.
  induction es as [|e es IH]; intros st H0; [exact H0|].
  cbn. apply IH.
  destruct e; cbn; unfold Dashboard.onSuccess, Dashboard.onCancel;
    try discriminate;
    destruct (Dashboard.showForm st) eqn:Hs; auto;
    destruct (Dashboard.editingInterview st); cbn; auto.
Qed.

(** ** Typing effect *)

Lemma substring_grows (s : string) (n : nat) :
  (n < String.length s)%nat ->
  substring 0 n s ++ substring n 1 s = substring 0 (S n) s.
Proof.
  revert n. induction s as [|c r IH]; intros n H; cbn in H; [lia|].
  destruct n.
  - cbn. destruct r; reflexivity.
  - cbn [substring append]. rewrite IH by lia. reflexivity.
Qed.

Lemma typed_prefix (text : string) (n : nat) (st : TypingEffect.State) :
  TypingEffect.displayText st = substring 0 (TypingEffect.currentIndex st) text ->
  (TypingEffect.currentIndex st <= String.length text)%nat ->
  let st' := TypingEffect.after n text st in
  TypingEffect.currentIndex st'
  = Nat.min (TypingEffect.currentIndex st + n) (String.length text)
  /\ TypingEffect.displayText st'
     = substring 0 (TypingEffect.currentIndex st') text.
Proof.
  revert st. induction n as [|n IH]; intros st Hd Hi; cbv zeta.
  - cbn. split; [lia|exact Hd].
  - cbn [TypingEffect.after]. unfold TypingEffect.timeoutFires.
    destruct (Nat.ltb_spec (TypingEffect.currentIndex st) (String.length text)).
    + specialize (IH (TypingEffect.mk
                        (TypingEffect.displayText st
                         ++ substring (TypingEffect.currentIndex st) 1 text)
                        (S (TypingEffect.currentIndex st)))).
      cbn [TypingEffect.displayText TypingEffect.currentIndex] in IH.
      destruct IH as [I1 I2].
      * rewrite Hd. apply substring_grows. assumption.
      * lia.
      * split; [rewrite I1; lia|exact I2].
    + destruct (IH st Hd Hi) as [I1 I2]. split; [rewrite I1; lia|exact I2].
Qed.

(** X25. After [n] timeouts the typing effect shows the first [n]
    characters of the text, and the whole text once [n] reaches its
    length; it never shows anything else. *)
Theorem typing_shows_prefix_then_whole_text (text : string) (n : nat) :
  let st := TypingEffect.after n text TypingEffect.init in
  TypingEffect.displayText st = substring 0 (Nat.min n (String.length text)) text
  /\ ((String.length text <= n)%nat -> TypingEffect.displayText st = text).
Proof.
  cbv zeta.
  destruct (@typed_prefix text n TypingEffect.init) as [I1 I2].
  - cbn. destruct text; reflexivity.
  - cbn. lia.
  - cbn in I1. rewrite I2, I1. split; [reflexivity|].
    intros H. rewrite Nat.min_r by lia. apply substring_all. lia.
Qed.

(** ** The deadline, restated for the interval callback *)

(** X4. With a parsed start time [T], the interval callback asks to end
    the run at exactly the ticks at or after [T] plus the duration it
    closed over, and sends nothing before. *)
Theorem guard_fires_exactly_from_the_deadline (t : Timer) (T now : Z) (p : Page) :
  startTime t = Some T ->
  (firesAt t now p <-> T + timerDuration t * 60000 <= now)
  /\ (now < T + timerDuration t * 60000 -> snd (updateTimer t now p) = []).
Proof. exact (timer_fires_iff t now p). Qed.

(** X5. Ticks one second apart, from whatever moment on, reach a tick
    at which the callback asks to end the run. *)
Theorem guard_reaches_a_firing_tick (t : Timer) (T t0 : Z) (p : Page) :
  startTime t = Some T ->
  exists k : nat, firesAt t (t0 + 1000 * Z.of_nat k) p.
Proof. exact (timer_eventually_fires t t0 p). Qed.

(** X6. With the interview details in the page and the run's history
    loaded, the first update of the timer effect asks to end the run
    exactly when the opening turn's timestamp plus the configured duration
    has passed. *)
Theorem loaded_details_set_the_deadline getTime (now T : Z) (p : Page)
    (s : Turn) (i : Interview.t) :
  started p = true ->
  truthyOpt (sessionRunId p) = true ->
  find isOpeningSession (sessions p) = Some s ->
  getTime (InterviewSession.created_at s) = Some T ->
  interview p = Some i ->
  snd (timerEffect getTime now (durationEffect p))
  = if T + Interview.duration_minutes i * 60000 <=? now
    then [EndInterview (interviewId p) (sessionRunId p)]
    else [].
Proof. exact (@guard_exact_when_details_loaded getTime now T p s i). Qed.

(** X10. As long as answers come from the chat form only, at most one
    [sendMessage] call is awaiting its response. *)
Theorem chat_form_keeps_one_answer_in_flight getTime (iid : string)
    (es : list Event) :
  forallb (fun e => negb (isCodeSubmitted e)) es = true ->
  (length (sendsInFlight (run getTime es (mount iid))) <= 1)%nat.
Proof. exact (@form_path_single_flight getTime iid es). Qed.

(** ** The history the page asks for *)

(** X26. Whenever the sessions query is enabled it fetches the history
    of the run the page holds, never the unfiltered list of the
    interview. *)
Theorem sessions_query_names_the_run (base : string) (p : Page) (url : string) :
  sessionsQuery base p = Some url ->
  exists run,
    sessionRunId p = Some run
    /\ run <> ""
    /\ url = base ++ "/api/interviews/" ++ interviewId p
             ++ "/sessions?session_run_id=" ++ run.
Proof.
  unfold sessionsQuery.
  destruct (truthy (interviewId p) && started p); cbn [andb]; [|discriminate].
  destruct (sessionRunId p) as [run|] eqn:Hr; cbn [truthyOpt]; [|discriminate].
  destruct (truthy run) eqn:Ht; [|discriminate].
  intros H. injection H as <-. exists run. repeat split.
  - intros ->. discriminate.
  - unfold sessionsUrl, orUndefined. cbn [truthyOpt]. rewrite Ht.
    cbn [truthyOpt]. rewrite Ht. reflexivity.
Qed.

(** ** The properties at sample inputs *)

Lemma started_page_never_starts_again_witness :
  let es := [LatestLoaded None; ResumeEffect; StartFailed; ResumeEffect;
             EndClicked] in
  started (page (run Scenario.getTime es Samples.resumed)) = true
  /\ filter isStart (requests (run Scenario.getTime es Samples.resumed))
     = filter isStart (requests Samples.resumed).
Proof.
  apply (@started_page_never_starts_again Scenario.getTime _ Samples.resumed).
  reflexivity.
Defined.

Lemma guard_fires_exactly_from_the_deadline_witness :
  (firesAt Samples.clock (Scenario.T0 + 60 * Scenario.minute)
           (page Samples.resumed)
   <-> Scenario.T0 + timerDuration Samples.clock * 60000
       <= Scenario.T0 + 60 * Scenario.minute)
  /\ (Scenario.T0 + 60 * Scenario.minute
      < Scenario.T0 + timerDuration Samples.clock * 60000 ->
      snd (updateTimer Samples.clock (Scenario.T0 + 60 * Scenario.minute)
                       (page Samples.resumed)) = []).
Proof.
  apply (@guard_fires_exactly_from_the_deadline Samples.clock Scenario.T0).
  reflexivity.
Defined.

Lemma guard_reaches_a_firing_tick_witness :
  exists k : nat,
    firesAt Samples.clock (Scenario.T0 + 500 + 1000 * Z.of_nat k)
            (page Samples.resumed).
Proof.
  apply (@guard_reaches_a_firing_tick Samples.clock Scenario.T0).
  reflexivity.
Defined.

Lemma loaded_details_set_the_deadline_witness :
  let p := page (run Scenario.getTime
                     [SessionsLoaded [Scenario.opening; Scenario.answer];
                      InterviewLoaded Scenario.interview60]
                     Samples.resumed) in
  snd (timerEffect Scenario.getTime (Scenario.T0 + 31 * Scenario.minute)
                   (durationEffect p))
  = if Scenario.T0 + Interview.duration_minutes Scenario.interview60 * 60000
       <=? Scenario.T0 + 31 * Scenario.minute
    then [EndInterview (interviewId p) (sessionRunId p)]
    else [].
Proof.
  intros p.
  apply (@loaded_details_set_the_deadline Scenario.getTime
           (Scenario.T0 + 31 * Scenario.minute) Scenario.T0 p
           Scenario.opening Scenario.interview60); reflexivity.
Defined.

Lemma every_tick_past_the_deadline_ends_again_witness :
  let nows := [Scenario.T0 + 60 * Scenario.minute;
               Scenario.T0 + 60 * Scenario.minute + 1000] in
  requests (run Scenario.getTime (map Tick nows) Samples.ticking)
  = (requests Samples.ticking
     ++ repeat (EndInterview (interviewId (page Samples.ticking))
                             (orUndefined (timerRunId Samples.clock)))
               (length nows))%list.
Proof.
  intros nows.
  apply (@every_tick_past_the_deadline_ends_again Scenario.getTime
           Samples.clock Scenario.T0 nows Samples.ticking);
    try reflexivity.
  repeat constructor; vm_compute; discriminate.
Defined.

Lemma timer_resumes_from_shown_time_without_opening_turn_witness :
  elapsedTime
    (fst (fst (timerEffect Scenario.getTime Scenario.T0
                 (setElapsedTime (Some 125) (page Samples.resumed)))))
  = Some (if 0 <? 125 then 125 else 0).
Proof.
  apply (@timer_resumes_from_shown_time_without_opening_turn
           Scenario.getTime Scenario.T0 125); reflexivity.
Defined.

Lemma unreadable_opening_timestamp_disables_the_guard_witness :
  let p := setSessions [Samples.unreadable] (page Samples.resumed) in
  exists t,
    timerEffect Scenario.getTime Scenario.T0 p
    = (setElapsedTime None p, Some t, [])
    /\ forall later p', updateTimer t later p' = (setElapsedTime None p', []).
Proof.
  intros p.
  apply (@unreadable_opening_timestamp_disables_the_guard
           Scenario.getTime Scenario.T0 p Samples.unreadable); reflexivity.
Defined.

Lemma chat_form_keeps_one_answer_in_flight_witness :
  (length (sendsInFlight
             (run Scenario.getTime
                  [LatestLoaded (Some Scenario.answer); ResumeEffect;
                   Typed "I used LRU"; SubmitForm; SubmitForm; ToggleCode]
                  (mount "interview-0"))) <= 1)%nat.
Proof.
  apply (@chat_form_keeps_one_answer_in_flight Scenario.getTime "interview-0").
  reflexivity.
Defined.

Lemma requests_name_the_interview_and_a_real_run_witness :
  requestFor "interview-0" (EndInterview "interview-0" None) = true.
Proof.
  apply (@requests_name_the_interview_and_a_real_run Scenario.getTime
           "interview-0" [EndClicked]).
  left. reflexivity.
Defined.

Lemma chat_form_sends_trimmed_answer_witness :
  let p := page (run Scenario.getTime
                     (Scenario.answerTyped
                      ++ [Typed (nbsp ++ " I used LRU" ++ nl ++ nbsp)])
                     (mount "interview-0")) in
  exists m,
    SendMessage "interview-0" "I used LRU" (Some "run-0")
    = SendMessage (interviewId p) m (orUndefined (sessionRunId p))
    /\ m = trim (userMessage p)
    /\ m <> ""
    /\ firstIsSpace m = false
    /\ lastIsSpace m = false
    /\ trim m = m.
Proof.
  intros p. apply (@chat_form_sends_trimmed_answer p).
  left. reflexivity.
Defined.

Lemma no_answer_is_sent_after_an_end_response_witness :
  let w := step Scenario.getTime EndClicked Samples.resumed in
  let answered :=
    step Scenario.getTime
         (EndResponded
            (Some (EndInterviewResponse.mk "ended" "interview-0"
                     (Some "run-0") (Some "Solid session."))))
         w in
  let es := [Typed "One more thing"; SubmitForm; ToggleCode;
             CodeSubmitted "print(1)" "python"; EndResponded None] in
  chatClosed (run Scenario.getTime es answered)
  /\ filter isSend (requests (run Scenario.getTime es answered))
     = filter isSend (requests w).
Proof.
  intros w answered es.
  apply (@no_answer_is_sent_after_an_end_response Scenario.getTime _ es w).
  - reflexivity.
  - vm_compute. lia.
Defined.

Lemma formatTime_is_zero_padded_witness :
  formatTime (Some 125) = twoDigits (125 / 60) ++ ":" ++ twoDigits (125 mod 60).
Proof.
  apply formatTime_is_zero_padded. lia.
Defined.

Lemma form_request_shape_witness :
  let st := StartInterviewForm.run
              [StartInterviewForm.TitleChanged " Backend engineer";
               StartInterviewForm.DurationChanged "45"]
              (StartInterviewForm.init None) in
  StartInterviewForm.handleSubmit st
  = [StartInterviewForm.CreateInterview " Backend engineer"
       (StartInterviewForm.Finite 45)]
  /\ trim (StartInterviewForm.title st) <> ""
  /\ StartInterviewForm.CreateInterview " Backend engineer"
       (StartInterviewForm.Finite 45)
     = match StartInterviewForm.interview st with
       | Some i =>
           StartInterviewForm.UpdateInterview (Interview.id i)
             (StartInterviewForm.title st)
             (StartInterviewForm.durationMinutes st)
       | None =>
           StartInterviewForm.CreateInterview
             (StartInterviewForm.title st)
             (StartInterviewForm.durationMinutes st)
       end.
Proof.
  intros st. apply (@form_request_shape st).
  left. reflexivity.
Defined.

Lemma duration_field_reads_back_its_value_witness :
  let typed (z : Z) :=
    StartInterviewForm.durationMinutes
      (StartInterviewForm.step
         (StartInterviewForm.DurationChanged (toStringZ z))
         (StartInterviewForm.init None)) in
  toStringZ 9007199254740993 = "9007199254740993"
  /\ typed 9007199254740993 = StartInterviewForm.Finite 9007199254740992
  /\ typed 5 = StartInterviewForm.Finite 5.
Proof.
  cbv zeta. split; [reflexivity|]. split.
  - rewrite (proj1 (@duration_field_reads_back_its_value
                      9007199254740993 (StartInterviewForm.init None))).
    vm_compute. reflexivity.
  - apply (proj2 (@duration_field_reads_back_its_value
                    5 (StartInterviewForm.init None))).
    vm_compute. reflexivity.
Defined.

Lemma only_pdf_files_are_uploaded_witness :
  Documents.type Samples.cv = "application/pdf".
Proof.
  apply (@only_pdf_files_are_uploaded "interview-0"
           [Documents.JobDescriptionFileChanged (Some Samples.jobAd);
            Documents.CVFileChanged (Some Samples.notes);
            Documents.CVFileChanged (Some Samples.cv)]
           (Documents.UploadCV "interview-0" Samples.cv)).
  - right. left. reflexivity.
  - reflexivity.
Defined.

Lemma pasted_text_is_processed_witness :
  let st := Documents.run
              [Documents.JobDescriptionFileChanged (Some Samples.jobAd);
               Documents.JobDescriptionTextChanged "ignored while a file is set";
               Documents.JobDescriptionFileRemoved;
               Documents.JobDescriptionTextChanged "We build caches."]
              Documents.init in
  Documents.jobDescriptionFile st = None
  /\ Documents.uploadPromises "interview-0" st
     = (Documents.ProcessJobDescriptionText "interview-0"
          (Documents.jobDescriptionText st)
        :: match Documents.cvFile st with
           | Some f => [Documents.UploadCV "interview-0" f]
           | None => []
           end).
Proof.
  apply (@pasted_text_is_processed "interview-0").
  reflexivity.
Defined.

Lemma hidden_form_is_not_editing_witness :
  Dashboard.editingInterview
    (Dashboard.run [Dashboard.EditClicked Scenario.interview60;
                    Dashboard.FormCancelled]
                   Dashboard.init) = None.
Proof.
  apply (@hidden_form_is_not_editing
           [Dashboard.EditClicked Scenario.interview60; Dashboard.FormCancelled]).
  reflexivity.
Defined.

Lemma sessions_query_names_the_run_witness :
  exists run,
    sessionRunId (page Samples.resumed) = Some run
    /\ run <> ""
    /\ "http://localhost:8000/api/interviews/interview-0/sessions?session_run_id=run-0"
       = "http://localhost:8000" ++ "/api/interviews/"
         ++ interviewId (page Samples.resumed)
         ++ "/sessions?session_run_id=" ++ run.
Proof.
  apply (@sessions_query_names_the_run "http://localhost:8000"
           (page Samples.resumed)).
  reflexivity.
Defined.
